(** * BlockVault: the ZKML inference attestation of [blockvault/core/zkml_inference.py]

    A shallow embedding of the commitment / proof-synthesis / verification
    protocol of [ZKMLSummarizer], and the properties its specification states
    about it.

    Conventions of the embedding.
    - A Python [str] is a Rocq [string], one character per code point; the
      code points are those of Latin-1 (U+0000..U+00FF), so that
      [encode('utf-8')] is total and writes one or two bytes per character.
    - Python objects that can reach the code as metadata or as a proof
      artifact (the values of a deserialised JSON document, floats apart) are
      the inductive type [pyval]; a [dict] is an association list in insertion
      order whose keys are strings. Tuples, bytes and floats have no
      counterpart in [pyval]: a statement over [pyval] says nothing of them.
    - [str(v)] is total here ([py_str]). CPython refuses to format an int of
      more than 4300 decimal digits ([ValueError], the default limit) and a
      value nested deeper than its recursion limit ([RecursionError]); a
      property that needs the formatting to succeed is stated for the values
      of [is_plain], which CPython formats as [py_str] does.
    - An operation that can raise returns a [result]; the module-level
      [np.random] generator is threaded as explicit state.
    - Calls to [logger] do not influence any returned value and are left out. *)

From Stdlib Require Import ZArith List Bool Ascii String Lia.
From Stdlib Require Import Permutation Sorted DecimalString.
Import ListNotations.

Local Open Scope Z_scope.
Local Open Scope string_scope.

(* ------------------------------------------------------------------ *)
(** ** Exceptions and results *)

(** The exception classes the code can meet; all derive from [Exception]. *)
Inductive exn : Type :=
| KeyError | IndexError | TypeError | AttributeError | ValueError | RuntimeError.

Inductive result (A : Type) : Type :=
| Ok (a : A)
| Raise (e : exn).
Arguments Ok {A} a.
Arguments Raise {A} e.

Definition rbind {A B} (r : result A) (k : A -> result B) : result B :=
  match r with
  | Ok a => k a
  | Raise e => Raise e
  end.

Declare Scope result_scope.
Delimit Scope result_scope with result.
Notation "x <- r ;; k" := (rbind r (fun x => k))
  (at level 61, r at next level, right associativity) : result_scope.

(** [try: body except Exception: handler] for a handler that ignores the
    exception value. *)
Definition try_except {A} (body : result A) (handler : result A) : result A :=
  match body with
  | Ok a => Ok a
  | Raise _ => handler
  end.

(* ------------------------------------------------------------------ *)
(** ** Python values *)

#[local] Set Warnings "-register-all".

Inductive pyval : Type :=
| PNone
| PBool (b : bool)
| PInt (z : Z)
| PStr (s : string)
| PList (l : list pyval)
| PDict (d : list (string * pyval)).

Definition pydict : Type := list (string * pyval).

(** Keys of a dict are pairwise distinct. *)
Definition wf_dict (d : pydict) : Prop := NoDup (map fst d).

Fixpoint dict_get (d : pydict) (k : string) : option pyval :=
  match d with
  | [] => None
  | (k', v) :: d' => if String.eqb k' k then Some v else dict_get d' k
  end.

Definition dict_has (d : pydict) (k : string) : bool :=
  match dict_get d k with Some _ => true | None => false end.

Definition code (c : ascii) : Z := Z.of_N (N_of_ascii c).
Definition chr (z : Z) : ascii := ascii_of_N (Z.to_N z).

Definition dquote : ascii := chr 34.
Definition squote : ascii := chr 39.
Definition backslash : ascii := chr 92.

Definition str1 (c : ascii) : string := String c EmptyString.

Fixpoint string_mem (c : ascii) (s : string) : bool :=
  match s with
  | EmptyString => false
  | String c' s' => Ascii.eqb c c' || string_mem c s'
  end.

Fixpoint str_join (sep : string) (l : list string) : string :=
  match l with
  | [] => ""
  | [s] => s
  | s :: l' => s ++ sep ++ str_join sep l'
  end.

(** [''.join(l)] *)
Definition str_concat (l : list string) : string := fold_right append "" l.

(** [s[:n]] on a str. *)
Definition str_prefix (n : nat) (s : string) : string := substring 0 n s.

(** [str(z)] for an int. *)
Definition str_of_int (z : Z) : string := NilZero.string_of_int (Z.to_int z).

Definition hex_digit (d : Z) : ascii :=
  if (d <? 10)%Z then chr (48 + d) else chr (87 + d).

(** Two lowercase hexadecimal digits of a byte. *)
Definition hex2 (b : Z) : string :=
  String (hex_digit (b / 16)) (String (hex_digit (b mod 16)) "").

(** [repr] of one character inside a str literal quoted by [q]. In
    U+0080..U+00FF the non-printable code points are the C1 controls, the
    no-break space and the soft hyphen. *)
Definition repr_char (q c : ascii) : string :=
  let n := code c in
  if Ascii.eqb c q || Ascii.eqb c backslash then String backslash (str1 c)
  else if (n =? 9)%Z then String backslash "t"
  else if (n =? 10)%Z then String backslash "n"
  else if (n =? 13)%Z then String backslash "r"
  else if ((n <? 32) || (n =? 127) || ((128 <=? n) && (n <=? 160)) || (n =? 173))%Z
       then String backslash (String "x" (hex2 n))
  else str1 c.

Fixpoint repr_chars (q : ascii) (s : string) : string :=
  match s with
  | EmptyString => ""
  | String c s' => repr_char q c ++ repr_chars q s'
  end.

(** [repr(s)] for a str: single quotes, unless the string holds a single
    quote and no double quote. *)
Definition repr_str (s : string) : string :=
  let q := if string_mem squote s && negb (string_mem dquote s)
           then dquote else squote in
  String q (repr_chars q s ++ str1 q).

Fixpoint py_repr (v : pyval) : string :=
  match v with
  | PNone => "None"
  | PBool true => "True"
  | PBool false => "False"
  | PInt z => str_of_int z
  | PStr s => repr_str s
  | PList l => "[" ++ str_join ", " (map py_repr l) ++ "]"
  | PDict d =>
      "{" ++ str_join ", "
        ((fix items (d : list (string * pyval)) : list string :=
            match d with
            | [] => []
            | (k, x) :: d' => (repr_str k ++ ": " ++ py_repr x) :: items d'
            end) d) ++ "}"
  end.

(** [str(v)], which is also what an f-string field [{v}] formats. *)
Definition py_str (v : pyval) : string :=
  match v with
  | PStr s => s
  | _ => py_repr v
  end.

(** [v == s] for a str [s]: no other value of [pyval] equals a str. *)
Definition py_eq_str (v : pyval) (s : string) : bool :=
  match v with
  | PStr s' => String.eqb s' s
  | _ => false
  end.

(** [v[k]] for a str key [k]. *)
Definition getitem (v : pyval) (k : string) : result pyval :=
  match v with
  | PDict d => match dict_get d k with
               | Some x => Ok x
               | None => Raise KeyError
               end
  | _ => Raise TypeError
  end.

(** [v[i]] for an int constant [i >= 0]. A dict has no int key. *)
Definition getindex (v : pyval) (i : nat) : result pyval :=
  match v with
  | PList l => match nth_error l i with
               | Some x => Ok x
               | None => Raise IndexError
               end
  | PStr s => match get i s with
              | Some c => Ok (PStr (str1 c))
              | None => Raise IndexError
              end
  | PDict _ => Raise KeyError
  | _ => Raise TypeError
  end.

(** [v[:n]]. A dict raises [TypeError] (unhashable slice) up to Python 3.11
    and [KeyError] from 3.12 on; both are exceptions and the caller treats
    them alike. *)
Definition getslice (v : pyval) (n : nat) : result pyval :=
  match v with
  | PStr s => Ok (PStr (str_prefix n s))
  | PList l => Ok (PList (firstn n l))
  | _ => Raise TypeError
  end.

(** [len(v)] *)
Definition py_len (v : pyval) : result Z :=
  match v with
  | PStr s => Ok (Z.of_nat (String.length s))
  | PList l => Ok (Z.of_nat (List.length l))
  | PDict d => Ok (Z.of_nat (List.length d))
  | _ => Raise TypeError
  end.

Fixpoint is_substring (k s : string) : bool :=
  String.prefix k s ||
  match s with
  | EmptyString => false
  | String _ s' => is_substring k s'
  end.

(** [k in v] for a str [k]: key of a dict, element of a list, substring of a
    str. *)
Definition py_contains (v : pyval) (k : string) : result bool :=
  match v with
  | PDict d => Ok (dict_has d k)
  | PList l => Ok (existsb (fun x => py_eq_str x k) l)
  | PStr s => Ok (is_substring k s)
  | _ => Raise TypeError
  end.

(** [v.items()] *)
Definition py_items (v : pyval) : result pydict :=
  match v with
  | PDict d => Ok d
  | _ => Raise AttributeError
  end.

(** [sorted(d.items())]. Items are (key, value) tuples; the keys of a dict
    are pairwise distinct, so the order of two items is that of their keys
    (code-point order of str) and values are never compared. The sort is
    stable. *)
Fixpoint insert_item (x : string * pyval) (l : pydict) : pydict :=
  match l with
  | [] => [x]
  | y :: l' => if String.leb (fst x) (fst y) then x :: l
               else y :: insert_item x l'
  end.

Definition sorted_items (d : pydict) : pydict := fold_right insert_item [] d.

(* ------------------------------------------------------------------ *)
(** ** [str.encode('utf-8')] and [hashlib.sha256] *)

(** UTF-8 encoding of a code point below U+0100. *)
Definition encode_char (c : ascii) : list Z :=
  let n := code c in
  if (n <? 128)%Z then [n] else [192 + n / 64; 128 + n mod 64].

Fixpoint encode_utf8 (s : string) : list Z :=
  match s with
  | EmptyString => []
  | String c s' => (encode_char c ++ encode_utf8 s')%list
  end.

Module SHA256.

Local Open Scope list_scope.
Local Open Scope Z_scope.

Definition wrap (x : Z) : Z := x mod 2 ^ 32.
Definition add32 (x y : Z) : Z := wrap (x + y).
Definition rotr (n x : Z) : Z :=
  Z.lor (Z.shiftr x n) (wrap (Z.shiftl x (32 - n))).
Definition not32 (x : Z) : Z := Z.lxor x 0xffffffff.

Definition Ch (x y z : Z) : Z := Z.lxor (Z.land x y) (Z.land (not32 x) z).
Definition Maj (x y z : Z) : Z :=
  Z.lxor (Z.lxor (Z.land x y) (Z.land x z)) (Z.land y z).
Definition Sigma0 (x : Z) : Z :=
  Z.lxor (Z.lxor (rotr 2 x) (rotr 13 x)) (rotr 22 x).
Definition Sigma1 (x : Z) : Z :=
  Z.lxor (Z.lxor (rotr 6 x) (rotr 11 x)) (rotr 25 x).
Definition sigma0 (x : Z) : Z :=
  Z.lxor (Z.lxor (rotr 7 x) (rotr 18 x)) (Z.shiftr x 3).
Definition sigma1 (x : Z) : Z :=
  Z.lxor (Z.lxor (rotr 17 x) (rotr 19 x)) (Z.shiftr x 10).

(** The constants of FIPS 180-4 are fractional parts of roots of the first
    primes, on 32 bits. *)
Definition is_prime (n : Z) : bool :=
  (1 <? n) &&
  forallb (fun d => negb (n mod Z.of_nat d =? 0)) (seq 2 (Z.to_nat n - 2)).

Definition first_primes (count : nat) : list Z :=
  firstn count (filter is_prime (map Z.of_nat (seq 2 310))).

(** Integer cube root below 2^35, bit by bit. *)
Definition cube_root (x : Z) : Z :=
  fold_left
    (fun r b => let r' := r + 2 ^ Z.of_nat b in
                if r' * r' * r' <=? x then r' else r)
    (rev (seq 0 35)) 0.

(** K[i]: the cube root of the i-th prime. *)
Definition K : list Z :=
  Eval vm_compute in
    map (fun p => wrap (cube_root (p * 2 ^ 96))) (first_primes 64).

(** The initial hash value: the square roots of the first eight primes. *)
Definition initial_words : list Z :=
  Eval vm_compute in
    map (fun p => wrap (Z.sqrt (p * 2 ^ 64))) (first_primes 8).

(** The eight working words. *)
Record state : Type := mkState {
  h0 : Z; h1 : Z; h2 : Z; h3 : Z; h4 : Z; h5 : Z; h6 : Z; h7 : Z
}.

Definition H0 : state :=
  let w := fun i => nth i initial_words 0 in
  mkState (w 0%nat) (w 1%nat) (w 2%nat) (w 3%nat)
          (w 4%nat) (w 5%nat) (w 6%nat) (w 7%nat).

(** Message schedule, most recent word first: from W[t-1] .. W[t-16] the
    next word W[t]. *)
Definition next_w (r : list Z) : Z :=
  add32 (add32 (add32 (sigma1 (nth 1 r 0)) (nth 6 r 0))
               (sigma0 (nth 14 r 0))) (nth 15 r 0).

Fixpoint extend (n : nat) (r : list Z) : list Z :=
  match n with
  | O => r
  | S n' => extend n' (next_w r :: r)
  end.

Definition schedule (block : list Z) : list Z :=
  rev (extend 48 (rev block)).

Definition round (s : state) (kw : Z * Z) : state :=
  let (k, w) := kw in
  let t1 := add32 (add32 (add32 (add32 (h7 s) (Sigma1 (h4 s)))
                                (Ch (h4 s) (h5 s) (h6 s))) k) w in
  let t2 := add32 (Sigma0 (h0 s)) (Maj (h0 s) (h1 s) (h2 s)) in
  mkState (add32 t1 t2) (h0 s) (h1 s) (h2 s)
          (add32 (h3 s) t1) (h4 s) (h5 s) (h6 s).

Definition compress (s : state) (block : list Z) : state :=
  let t := fold_left round (combine K (schedule block)) s in
  mkState (add32 (h0 s) (h0 t)) (add32 (h1 s) (h1 t))
          (add32 (h2 s) (h2 t)) (add32 (h3 s) (h3 t))
          (add32 (h4 s) (h4 t)) (add32 (h5 s) (h5 t))
          (add32 (h6 s) (h6 t)) (add32 (h7 s) (h7 t)).

(** Big-endian bytes of [x], [n] of them. *)
Fixpoint be_bytes (n : nat) (x : Z) : list Z :=
  match n with
  | O => []
  | S n' => be_bytes n' (x / 256) ++ [x mod 256]
  end.

Definition pad (msg : list Z) : list Z :=
  let len := Z.of_nat (List.length msg) in
  msg ++ [0x80] ++ repeat 0 (Z.to_nat ((55 - len) mod 64))
      ++ be_bytes 8 (8 * len).

Fixpoint be_words (n : nat) (bytes : list Z) : list Z :=
  match n with
  | O => []
  | S n' =>
      match bytes with
      | a :: b :: c :: d :: rest =>
          (((a * 256 + b) * 256 + c) * 256 + d) :: be_words n' rest
      | _ => []
      end
  end.

Fixpoint blocks (n : nat) (bytes : list Z) (s : state) : state :=
  match n with
  | O => s
  | S n' => blocks n' (skipn 64 bytes) (compress s (be_words 16 (firstn 64 bytes)))
  end.

Definition digest (msg : list Z) : state :=
  let p := pad msg in
  blocks (List.length p / 64) p H0.

(** Eight lowercase hexadecimal digits of a 32-bit word. *)
Fixpoint hex_digits (n : nat) (x : Z) : string :=
  match n with
  | O => ""
  | S n' => (hex_digits n' (x / 16) ++ str1 (hex_digit (x mod 16)))%string
  end.

Definition hex8 (x : Z) : string := hex_digits 8 (wrap x).

Definition hexdigest_of (s : state) : string :=
  (hex8 (h0 s) ++ hex8 (h1 s) ++ hex8 (h2 s) ++ hex8 (h3 s) ++
   hex8 (h4 s) ++ hex8 (h5 s) ++ hex8 (h6 s) ++ hex8 (h7 s))%string.

End SHA256.

(** [hashlib.sha256(s.encode('utf-8')).hexdigest()] *)
Definition sha256_hex (s : string) : string :=
  SHA256.hexdigest_of (SHA256.digest (encode_utf8 s)).




(* ------------------------------------------------------------------ *)
(** ** [int(s, 16)] *)

Definition hex_value (c : ascii) : option Z :=
  let n := code c in
  if ((48 <=? n) && (n <=? 57))%Z then Some (n - 48)
  else if ((97 <=? n) && (n <=? 102))%Z then Some (n - 87)
  else if ((65 <=? n) && (n <=? 70))%Z then Some (n - 55)
  else None.

Fixpoint hex_acc (acc : Z) (s : string) : result Z :=
  match s with
  | EmptyString => Ok acc
  | String c s' =>
      match hex_value c with
      | Some d => hex_acc (16 * acc + d) s'
      | None => Raise ValueError
      end
  end.

(** [int(s, 16)] on a string of hexadecimal digits; the empty string raises
    [ValueError]. Python accepts further spellings (surrounding blanks, a
    sign, a [0x] prefix, single underscores between digits); they do not
    occur in a prefix of a hexdigest, the only argument the code passes, and
    are not modelled. *)
Definition int_base16 (s : string) : result Z :=
  match s with
  | EmptyString => Raise ValueError
  | _ => hex_acc 0 s
  end.

(* ------------------------------------------------------------------ *)
(** ** The [numpy.random] legacy generator *)

(** The generator behind [np.random.seed] and [np.random.randint]:
    [seed_state s] is the state installed by an accepted seed [s], and
    [randint low high] draws from the half-open range [low, high) and steps
    the state. *)
Class RandomBackend : Type := {
  rng_state : Type;
  seed_state : Z -> rng_state;
  randint : Z -> Z -> rng_state -> Z * rng_state
}.

(** numpy's generator: MT19937, seeded by Knuth's recurrence, bounded
    integers by masked rejection of 32-bit outputs. *)
Module MT19937.

Local Open Scope list_scope.
Local Open Scope Z_scope.

Definition N : nat := 624.
Definition M : nat := 397.
Definition MATRIX_A : Z := 0x9908b0df.
Definition UPPER_MASK : Z := 0x80000000.
Definition LOWER_MASK : Z := 0x7fffffff.

Definition wrap (x : Z) : Z := x mod 2 ^ 32.

Record state : Type := mkState { key : list Z; pos : nat }.

(** [mt19937_seed]: key[0] = seed, key[i] = 1812433253 * (key[i-1] ^
    (key[i-1] >> 30)) + i, on 32 bits. *)
Fixpoint init_key (n : nat) (i : Z) (s : Z) : list Z :=
  match n with
  | O => []
  | S n' =>
      s :: init_key n' (i + 1)
             (wrap (1812433253 * Z.lxor s (Z.shiftr s 30) + i + 1))
  end.

Definition seed (s : Z) : state :=
  mkState (init_key N 0 (wrap s)) N.

Fixpoint upd (i : nat) (v : Z) (l : list Z) : list Z :=
  match l, i with
  | [], _ => []
  | _ :: l', O => v :: l'
  | x :: l', S i' => x :: upd i' v l'
  end.

(** One step of [mt19937_gen], in place on the key array. *)
Definition twist_at (k : list Z) (i : nat) : list Z :=
  let y := Z.lor (Z.land (nth i k 0) UPPER_MASK)
                 (Z.land (nth ((i + 1) mod N) k 0) LOWER_MASK) in
  let mag := if Z.odd y then MATRIX_A else 0 in
  upd i (Z.lxor (Z.lxor (nth ((i + M) mod N) k 0) (Z.shiftr y 1)) mag) k.

Definition twist (k : list Z) : list Z :=
  fold_left twist_at (seq 0 N) k.

Definition temper (y : Z) : Z :=
  let y := Z.lxor y (Z.shiftr y 11) in
  let y := Z.lxor y (Z.land (wrap (Z.shiftl y 7)) 0x9d2c5680) in
  let y := Z.lxor y (Z.land (wrap (Z.shiftl y 15)) 0xefc60000) in
  Z.lxor y (Z.shiftr y 18).

(** [mt19937_next]: the next 32-bit output. *)
Definition next (st : state) : Z * state :=
  let st := if (N <=? pos st)%nat then mkState (twist (key st)) 0 else st in
  (temper (nth (pos st) (key st) 0), mkState (key st) (S (pos st))).

(** Smallest mask [2^k - 1] that covers [rng]. *)
Definition gen_mask (rng : Z) : Z := 2 ^ Z.log2_up (rng + 1) - 1.

(** numpy repeats [val = next & mask] while [val > rng], without a bound;
    each round rejects a uniform word with probability below one half. The
    repetition is cut after [fuel] rejections in a row, where 0 is
    returned. *)
Fixpoint bounded (fuel : nat) (rng mask : Z) (st : state) : Z * state :=
  match fuel with
  | O => (0, st)
  | S fuel' =>
      let (y, st') := next st in
      let val := Z.land y mask in
      if val <=? rng then (val, st') else bounded fuel' rng mask st'
  end.

Definition reject_limit : nat := 4096.

(** [randint(low, high)] for the default integer type, [low < high] and a
    range below 2^32: [low + bounded(high - 1 - low)]; a range of one value
    draws nothing. *)
Definition randint (low high : Z) (st : state) : Z * state :=
  let rng := high - 1 - low in
  if rng =? 0 then (low, st)
  else let (v, st') := bounded reject_limit rng (gen_mask rng) st in
       (low + v, st').

End MT19937.

#[export] Instance numpy_mt19937 : RandomBackend := {|
  rng_state := MT19937.state;
  seed_state := MT19937.seed;
  randint := MT19937.randint
|}.


(** Computations that may raise and that read and write the state of the
    module-level generator; the state written before an exception stays. *)
Definition Rand (S A : Type) : Type := S -> result A * S.

Definition mret {S A} (a : A) : Rand S A := fun st => (Ok a, st).

Definition mbind {S A B} (m : Rand S A) (k : A -> Rand S B) : Rand S B :=
  fun st =>
    match m st with
    | (Ok a, st') => k a st'
    | (Raise e, st') => (Raise e, st')
    end.

Definition lift {S A} (r : result A) : Rand S A := fun st => (r, st).

Declare Scope rand_scope.
Delimit Scope rand_scope with rand.
Notation "x <- m ;; k" := (mbind m (fun x => k))
  (at level 61, m at next level, right associativity) : rand_scope.

(* ------------------------------------------------------------------ *)
(** ** [ZKMLSummarizer] *)

(** [_generate_verification_key], with [self.model_hash] as first argument. *)
Definition _generate_verification_key (self_model_hash text summary : string)
  : string :=
  sha256_hex (str_prefix 100 text ++ summary ++ self_model_hash).

(** The metadata dict that [run_inference] builds for an input [text] and the
    [summary] its model decoded; [timestamp] stands for
    [int(os.times().elapsed * 1000)]. *)
Definition run_inference_metadata (self_model_hash text summary : string)
    (max_length min_length timestamp : Z) : pyval :=
  PDict [("input_hash", PStr (sha256_hex text));
         ("output_hash", PStr (sha256_hex summary));
         ("model_hash", PStr self_model_hash);
         ("input_length", PInt (Z.of_nat (String.length text)));
         ("output_length", PInt (Z.of_nat (String.length summary)));
         ("max_length", PInt max_length);
         ("min_length", PInt min_length);
         ("timestamp", PInt timestamp);
         ("model_name", PStr "bart-large-cnn");
         ("verification_key",
          PStr (_generate_verification_key self_model_hash text summary))].

(** [f"{k}:{v}"] *)
Definition format_item (kv : string * pyval) : string :=
  fst kv ++ ":" ++ py_str (snd kv).

(** The string that [_generate_commitment] hashes. *)
Definition combined_items (items : pydict) : string :=
  str_concat (map format_item (sorted_items items)).

Definition _generate_commitment (inputs : pyval) : result string :=
  (items <- py_items inputs ;;
   Ok (sha256_hex (combined_items items)))%result.

Definition _verify_commitment (commitment inputs : pyval) : result bool :=
  (expected <- _generate_commitment inputs ;;
   Ok (py_eq_str commitment expected))%result.

(** [x and y] on booleans, where [y] is evaluated only if [x] is true. *)
Definition py_and (x : result bool) (y : result bool) : result bool :=
  (b <- x ;; if b : bool then y else Ok false)%result.

(** [proof['public_signals'][i] == s] *)
Definition signal_eq (proof : pyval) (i : nat) (s : string) : result bool :=
  (signals <- getitem proof "public_signals" ;;
   x <- getindex signals i ;;
   Ok (py_eq_str x s))%result.

(** The body of the [try] of [verify_inference]. *)
Definition verify_inference_body (self_model_hash text summary : string)
    (proof : pyval) : result bool :=
  (let input_hash := sha256_hex text in
   let output_hash := sha256_hex summary in
   hash_matches <-
     py_and (signal_eq proof 0 (str_prefix 16 input_hash))
       (py_and (signal_eq proof 1 (str_prefix 16 output_hash))
               (signal_eq proof 2 (str_prefix 16 self_model_hash))) ;;
   commitment_valid <-
     (commitment <- getitem proof "commitment" ;;
      circuit_inputs <- getitem proof "circuit_inputs" ;;
      _verify_commitment commitment circuit_inputs) ;;
   proof_structure_valid <-
     py_and (py_contains proof "pi_a")
       (py_and (py_contains proof "pi_b")
          (py_and (py_contains proof "pi_c")
             (signals <- getitem proof "public_signals" ;;
              n <- py_len signals ;;
              Ok (n =? 4)%Z))) ;;
   Ok (hash_matches && commitment_valid && proof_structure_valid))%result.

(** [verify_inference]: any exception of the body is answered by [False]. *)
Definition verify_inference (self_model_hash text summary : string)
    (proof : pyval) : result bool :=
  try_except (verify_inference_body self_model_hash text summary proof)
             (Ok false).

(** The dict literal [circuit_inputs] of [generate_zk_proof]. *)
Definition circuit_inputs_dict
    (input_hash output_hash model_hash input_length output_length
     verification_key : pyval) : pydict :=
  [("input_hash", input_hash);
   ("output_hash", output_hash);
   ("model_hash", model_hash);
   ("input_length", input_length);
   ("output_length", output_length);
   ("verification_key", verification_key)].

(** The dict literal [proof] of [generate_zk_proof]. *)
Definition proof_dict (pi_a pi_b pi_c : pyval) (public_signals : list pyval)
    (commitment : string) (circuit_inputs : pydict) : pyval :=
  PDict [("pi_a", pi_a);
         ("pi_b", pi_b);
         ("pi_c", pi_c);
         ("protocol", PStr "groth16");
         ("curve", PStr "bn128");
         ("public_signals", PList public_signals);
         ("commitment", PStr commitment);
         ("circuit_inputs", PDict circuit_inputs)].

Section Synthesis.

Context {RB : RandomBackend}.

(** [np.random.seed(seed)]: an int outside 0 .. 2^32 - 1 is refused with
    [ValueError] and leaves the generator as it was. *)
Definition np_random_seed (seed : Z) : Rand rng_state unit :=
  fun st =>
    if ((0 <=? seed) && (seed <=? 2 ^ 32 - 1))%Z
    then (Ok tt, seed_state seed)
    else (Raise ValueError, st).

Definition np_random_randint (low high : Z) : Rand rng_state Z :=
  fun st => let (v, st') := randint low high st in (Ok v, st').

(** [[str(np.random.randint(1, 1000)) for _ in range(n)]] *)
Fixpoint draw_strs (n : nat) : Rand rng_state (list pyval) :=
  match n with
  | O => mret []
  | S n' =>
      (v <- np_random_randint 1 1000 ;;
       rest <- draw_strs n' ;;
       mret (PStr (str_of_int v) :: rest))%rand
  end.

(** [[[... for _ in range(m)] for _ in range(n)]] *)
Fixpoint draw_rows (n m : nat) : Rand rng_state (list pyval) :=
  match n with
  | O => mret []
  | S n' =>
      (row <- draw_strs m ;;
       rest <- draw_rows n' m ;;
       mret (PList row :: rest))%rand
  end.

Definition _generate_proof_point (commitment suffix : string)
  : Rand rng_state pyval :=
  (seed <- lift (int_base16 (str_prefix 8 commitment)) ;;
   _ <- np_random_seed seed ;;
   point <- draw_strs 3 ;;
   mret (PList point))%rand.

Definition _generate_proof_matrix (commitment suffix : string)
  : Rand rng_state pyval :=
  (n <- lift (int_base16 (str_prefix 8 commitment)) ;;
   let seed := (n + Z.of_nat (String.length suffix))%Z in
   _ <- np_random_seed seed ;;
   rows <- draw_rows 3 2 ;;
   mret (PList rows))%rand.

(** [metadata[field][:16]] *)
Definition truncated (metadata : pyval) (field : string)
  : Rand rng_state pyval :=
  lift (v <- getitem metadata field ;; getslice v 16)%result.

(** The body of the [try] of [generate_zk_proof]. *)
Definition generate_zk_proof_body (text summary : string) (metadata : pyval)
  : Rand rng_state pyval :=
  (input_hash <- lift (getitem metadata "input_hash") ;;
   output_hash <- lift (getitem metadata "output_hash") ;;
   model_hash <- lift (getitem metadata "model_hash") ;;
   input_length <- lift (getitem metadata "input_length") ;;
   output_length <- lift (getitem metadata "output_length") ;;
   verification_key <- lift (getitem metadata "verification_key") ;;
   let circuit_inputs :=
     circuit_inputs_dict input_hash output_hash model_hash
       (PStr (py_str input_length)) (PStr (py_str output_length))
       verification_key in
   commitment <- lift (_generate_commitment (PDict circuit_inputs)) ;;
   pi_a <- _generate_proof_point commitment "a" ;;
   pi_b <- _generate_proof_matrix commitment "b" ;;
   pi_c <- _generate_proof_point commitment "c" ;;
   s0 <- truncated metadata "input_hash" ;;
   s1 <- truncated metadata "output_hash" ;;
   s2 <- truncated metadata "model_hash" ;;
   s3 <- truncated metadata "verification_key" ;;
   mret (proof_dict pi_a pi_b pi_c [s0; s1; s2; s3] commitment
           circuit_inputs))%rand.

(** [generate_zk_proof]: any exception of the body is raised again as
    [RuntimeError]. *)
Definition generate_zk_proof (text summary : string) (metadata : pyval)
  : Rand rng_state pyval :=
  fun st =>
    match generate_zk_proof_body text summary metadata st with
    | (Ok proof, st') => (Ok proof, st')
    | (Raise _, st') => (Raise RuntimeError, st')
    end.

End Synthesis.

(* ------------------------------------------------------------------ *)
(** ** Vocabulary of the specification *)

(** The metadata fields that [generate_zk_proof] reads. *)
Definition required_fields : list string :=
  ["input_hash"; "output_hash"; "model_hash"; "input_length";
   "output_length"; "verification_key"].

(** The fields of an artifact that [verify_inference] reads or tests. *)
Definition checked_fields : list string :=
  ["public_signals"; "commitment"; "circuit_inputs"; "pi_a"; "pi_b"; "pi_c"].

(** The specification's [VerificationResult {valid, reason: optional}]. *)
Inductive Reason : Type :=
| StructuralError | BindingMismatch | CommitmentMismatch | InternalError.

Record VerificationResult : Type := mkResult {
  valid : bool;
  reason : option Reason
}.

(** What the caller of [verify_inference] holds, read as a
    [VerificationResult]: the function is declared [-> bool] and returns
    [is_valid] or [False]; that boolean is [valid], and nothing that could
    serve as a reason is returned with it. *)
Definition reported (r : result bool) : option VerificationResult :=
  match r with
  | Ok b => Some (mkResult b None)
  | Raise _ => None
  end.

(** The canonical form in the words of the specification: the field names
    sorted lexicographically, each followed by a colon and its value, the
    pairs concatenated without separator. *)
Fixpoint insert_name (x : string) (l : list string) : list string :=
  match l with
  | [] => [x]
  | y :: l' => if String.leb x y then x :: l else y :: insert_name x l'
  end.

Definition sort_names (l : list string) : list string :=
  fold_right insert_name [] l.

Definition field_value (inputs : pydict) (name : string) : string :=
  match dict_get inputs name with
  | Some v => py_str v
  | None => ""
  end.

Definition canonicalize (inputs : pydict) : string :=
  str_concat
    (map (fun name => name ++ ":" ++ field_value inputs name)
         (sort_names (map fst inputs))).

(** Shapes of the proof components. *)
Definition is_vector (n : nat) (v : pyval) : bool :=
  match v with
  | PList l => Nat.eqb (List.length l) n
  | _ => false
  end.

Definition is_matrix (n m : nat) (v : pyval) : bool :=
  match v with
  | PList rows => Nat.eqb (List.length rows) n && forallb (is_vector m) rows
  | _ => false
  end.

(** The commitment of the metadata that [run_inference] builds. *)
Definition inference_commitment (self_model_hash text summary : string)
  : string :=
  sha256_hex
    (combined_items
       (circuit_inputs_dict
          (PStr (sha256_hex text)) (PStr (sha256_hex summary))
          (PStr self_model_hash)
          (PStr (str_of_int (Z.of_nat (String.length text))))
          (PStr (str_of_int (Z.of_nat (String.length summary))))
          (PStr (_generate_verification_key self_model_hash text summary)))).

(* ------------------------------------------------------------------ *)
(** ** The scenario of the specification *)

(** Input text "Hello world.", summary "Hello.", model hash the digest of
    the empty byte string. *)
Definition hello_model_hash : string := sha256_hex "".

Definition hello_metadata : pyval :=
  run_inference_metadata hello_model_hash "Hello world." "Hello." 150 30 0.

Definition hello_signals : list pyval :=
  [PStr "aa3ec16e6acc809d"; PStr "2d8bd7d9bb5f85ba";
   PStr "e3b0c44298fc1c14"; PStr "6e2b90e39367bf30"].

Definition hello_commitment : string :=
  "4497ef80770d12ff961c6f6829c483aeaf21b6fa82159499f16e5d250892deb5".

Definition hello_circuit_inputs : pydict :=
  circuit_inputs_dict
    (PStr "aa3ec16e6acc809d8b2818662276256abfd2f1b441cb51574933f3d4bd115d11")
    (PStr "2d8bd7d9bb5f85ba643f0110d50cb506a1fe439e769a22503193ea6046bb87f7")
    (PStr "e3b0c44298fc1c149afbf4c8996fb92427ae41e4649b934ca495991b7852b855")
    (PStr "12") (PStr "6")
    (PStr "6e2b90e39367bf3034e6cb77a1108addc84cb745c55f79c2082a6511e7c84ef2").

(** The artifact numpy's generator yields for it. *)
Definition hello_proof : pyval :=
  proof_dict
    (PList [PStr "487"; PStr "253"; PStr "175"])
    (PList [PList [PStr "154"; PStr "34"];
            PList [PStr "495"; PStr "832"];
            PList [PStr "36"; PStr "702"]])
    (PList [PStr "487"; PStr "253"; PStr "175"])
    hello_signals hello_commitment hello_circuit_inputs.

(** The same artifact with proof components of other shapes. *)
Definition misshapen_proof : pyval :=
  proof_dict (PList []) (PList [PList [PStr "1"]]) (PInt 7)
    hello_signals hello_commitment hello_circuit_inputs.

(** The same artifact with three public signals. *)
Definition three_signal_proof : pyval :=
  proof_dict
    (PList [PStr "487"; PStr "253"; PStr "175"])
    (PList [PList [PStr "154"; PStr "34"];
            PList [PStr "495"; PStr "832"];
            PList [PStr "36"; PStr "702"]])
    (PList [PStr "487"; PStr "253"; PStr "175"])
    (firstn 3 hello_signals) hello_commitment hello_circuit_inputs.

(* ------------------------------------------------------------------ *)
(** ** Relations used in the proofs *)

(** Order of two items by their keys. *)
Definition key_le (x y : string * pyval) : Prop :=
  String.leb (fst x) (fst y) = true.

(** Two outcomes agree when they are the same result and state, or the same
    exception (whatever the states). *)
Definition agree {S A} (x y : result A * S) : Prop :=
  x = y \/ exists e, fst x = Raise e /\ fst y = Raise e.


(* ------------------------------------------------------------------ *)
(** ** The other methods of [ZKMLSummarizer] and the module functions *)

(** [c.isspace()] for a code point below U+0100: the ASCII blanks and
    separators, the next-line control and the no-break space. *)
Definition py_isspace (c : ascii) : bool :=
  let n := code c in
  (((9 <=? n) && (n <=? 13)) || ((28 <=? n) && (n <=? 32))
   || (n =? 133) || (n =? 160))%Z.

Fixpoint lstrip (s : string) : string :=
  match s with
  | EmptyString => EmptyString
  | String c s' => if py_isspace c then lstrip s' else s
  end.

Fixpoint rstrip (s : string) : string :=
  match s with
  | EmptyString => EmptyString
  | String c s' =>
      match rstrip s' with
      | EmptyString => if py_isspace c then EmptyString else str1 c
      | r => String c r
      end
  end.

(** [s.strip()] *)
Definition strip (s : string) : string := rstrip (lstrip s).

(** [preprocess_document], up to the call of the tokenizer: the text that is
    tokenized. *)
Definition preprocess_text (text : string) : string :=
  let text := strip text in
  if (10000 <? Z.of_nat (String.length text))%Z
  then str_prefix (Z.to_nat 10000) text ++ "..."
  else text.

(** What a path holds, as far as [_get_model_hash] can tell: nothing; a file
    whose bytes can be read; or something that exists and whose opening or
    reading raises (a directory, a file without read permission). *)
Inductive file_entry : Type :=
| Absent
| Content (bytes : list Z)
| Unreadable.

Definition filesystem : Type := string -> file_entry.

Definition os_path_exists (fs : filesystem) (path : string) : bool :=
  match fs path with
  | Absent => false
  | _ => true
  end.

(** [open(path, 'rb').read()]; [None] stands for any exception. *)
Definition read_bytes (fs : filesystem) (path : string) : option (list Z) :=
  match fs path with
  | Content bytes => Some bytes
  | _ => None
  end.

Fixpoint ends_with (c : ascii) (s : string) : bool :=
  match s with
  | EmptyString => false
  | String c' EmptyString => Ascii.eqb c' c
  | String _ s' => ends_with c s'
  end.

(** [os.path.join(a, b)] of [posixpath]. *)
Definition os_path_join (a b : string) : string :=
  if String.prefix "/" b then b
  else match a with
       | EmptyString => b
       | _ => if ends_with "/" a then a ++ b else a ++ "/" ++ b
       end.

(** [hashlib.sha256(data).hexdigest()] of a byte string. *)
Definition sha256_bytes (data : list Z) : string :=
  SHA256.hexdigest_of (SHA256.digest data).

(** The loop of the fallback: [combined_hash.update(f.read())] for each path
    that exists, that is the digest input grows by the bytes of the file. *)
Fixpoint update_existing (fs : filesystem) (paths : list string)
    (data : list Z) : option (list Z) :=
  match paths with
  | [] => Some data
  | path :: rest =>
      if os_path_exists fs path then
        match read_bytes fs path with
        | Some bytes => update_existing fs rest (data ++ bytes)
        | None => None
        end
      else update_existing fs rest data
  end.

(** [_get_model_hash], with [self.model_path] as argument. *)
Definition _get_model_hash (fs : filesystem) (model_path : string) : string :=
  let model_file := os_path_join model_path "pytorch_model.bin" in
  if os_path_exists fs model_file then
    match read_bytes fs model_file with
    | Some bytes => sha256_bytes bytes
    | None => "unknown_model_hash"
    end
  else
    let config_file := os_path_join model_path "config.json" in
    let tokenizer_file := os_path_join model_path "tokenizer.json" in
    match update_existing fs [config_file; tokenizer_file] [] with
    | Some data => sha256_bytes data
    | None => "unknown_model_hash"
    end.

(** [get_zkml_summarizer]: [global_summarizer] is the module variable
    [_summarizer], and [construct] the outcome that [ZKMLSummarizer()] has if
    it is called now. Returns the result and the new module variable. *)
Definition get_zkml_summarizer {T : Type} (construct : result T)
    (global_summarizer : option T) : result T * option T :=
  match global_summarizer with
  | Some summarizer => (Ok summarizer, global_summarizer)
  | None =>
      match construct with
      | Ok summarizer => (Ok summarizer, Some summarizer)
      | Raise e => (Raise e, None)
      end
  end.

(** Successive calls of [get_zkml_summarizer], one per element of
    [constructs]. *)
Fixpoint get_zkml_summarizer_calls {T : Type} (constructs : list (result T))
    (global_summarizer : option T) : list (result T) * option T :=
  match constructs with
  | [] => ([], global_summarizer)
  | construct :: rest =>
      let (r, g) := get_zkml_summarizer construct global_summarizer in
      let (rs, g') := get_zkml_summarizer_calls rest g in
      (r :: rs, g')
  end.

(** Vocabulary of the statements below. *)
Definition is_lower_hex (c : ascii) : bool :=
  let n := code c in
  (((48 <=? n) && (n <=? 57)) || ((97 <=? n) && (n <=? 102)))%Z.

Fixpoint string_forallb (f : ascii -> bool) (s : string) : bool :=
  match s with
  | EmptyString => true
  | String c s' => f c && string_forallb f s'
  end.

(** A 64-character lowercase hexadecimal string. *)
Definition is_hexdigest (s : string) : bool :=
  Nat.eqb (String.length s) 64 && string_forallb is_lower_hex s.

(** A value [str(v)] with [1 <= v < 1000]. *)
Definition is_draw (x : pyval) : Prop :=
  exists v, x = PStr (str_of_int v) /\ (1 <= v < 1000)%Z.

Definition all_draws (x : pyval) : Prop :=
  exists l, x = PList l /\ Forall is_draw l.

Definition all_rows_draws (x : pyval) : Prop :=
  exists rows, x = PList rows /\ Forall all_draws rows.

(** The first character, if any, is not a blank; so for the last. *)
Definition starts_nonspace (s : string) : bool :=
  match s with
  | EmptyString => true
  | String c _ => negb (py_isspace c)
  end.

Fixpoint ends_nonspace (s : string) : bool :=
  match s with
  | EmptyString => true
  | String c EmptyString => negb (py_isspace c)
  | String _ s' => ends_nonspace s'
  end.

(** A value that [v[:16]] refuses: [None], a bool and an int are not
    subscriptable, and a dict takes no slice as a key. *)
Definition is_unsliceable (v : pyval) : bool :=
  match v with
  | PNone | PBool _ | PInt _ | PDict _ => true
  | PStr _ | PList _ => false
  end.

(** The values that [str] formats whatever they hold: [None], a bool, a str,
    and an int of at most 4300 decimal digits. *)
Definition is_plain (v : pyval) : bool :=
  match v with
  | PNone | PBool _ | PStr _ => true
  | PInt z => (Z.abs z <? 10 ^ 4300)%Z
  | PList _ | PDict _ => false
  end.

(** A dict with distinct keys whose values are all plain. *)
Definition plain_dict (d : pydict) : Prop :=
  wf_dict d /\ forallb (fun kv => is_plain (snd kv)) d = true.

(** The dict with every value [v] replaced by [str(v)]. *)
Definition stringified (d : pydict) : pydict :=
  map (fun kv => (fst kv, PStr (py_str (snd kv)))) d.

Section Inference.

(** The tokenizer, the model and the decoder of [run_inference], taken
    together: from the text that [preprocess_document] cleaned and the two
    length bounds to the decoded summary, or an exception. *)
Variable summarize : string -> Z -> Z -> result string.

(** [run_inference]; [timestamp] stands for [int(os.times().elapsed * 1000)].
    Any exception is raised again as [RuntimeError]. *)
Definition run_inference (self_model_hash text : string)
    (max_length min_length timestamp : Z) : result (string * pyval) :=
  match summarize (preprocess_text text) max_length min_length with
  | Ok summary =>
      Ok (summary,
          run_inference_metadata self_model_hash text summary
            max_length min_length timestamp)
  | Raise _ => Raise RuntimeError
  end.

End Inference.

(* ================================================================== *)
(** * Properties *)

Arguments sha256_hex : simpl never.
Arguments str_prefix : simpl never.
Arguments combined_items : simpl never.

(** ** The two monads *)

Lemma mbind_ok {S A B} (m : Rand S A) (k : A -> Rand S B) st b st' :
  mbind m k st = (Ok b, st') ->
  exists a st1, m st = (Ok a, st1) /\ k a st1 = (Ok b, st').
Proof.
  unfold mbind. destruct (m st) as [[a|e] st1]; intros H.
  - exists a, st1. auto.
  - discriminate.
Qed.

Lemma mbind_step {S A B} (m : Rand S A) (k : A -> Rand S B) st a st1 :
  m st = (Ok a, st1) -> mbind m k st = k a st1.
Proof. unfold mbind. intros ->. reflexivity. Qed.

Lemma mbind_raise {S A B} (m : Rand S A) (k : A -> Rand S B) st e st1 :
  m st = (Raise e, st1) -> mbind m k st = (Raise e, st1).
Proof. unfold mbind. intros ->. reflexivity. Qed.

Lemma lift_ok {S A} (r : result A) (st st' : S) a :
  lift r st = (Ok a, st') -> r = Ok a /\ st' = st.
Proof. unfold lift. intros H. inversion H. auto. Qed.

Lemma rbind_ok {A B} (r : result A) (k : A -> result B) b :
  rbind r k = Ok b -> exists a, r = Ok a /\ k a = Ok b.
Proof. destruct r as [a|e]; simpl; intros H; [eauto | discriminate]. Qed.

Lemma try_except_total {A} (body : result A) (a : A) :
  exists x, try_except body (Ok a) = Ok x.
Proof. destruct body; simpl; eauto. Qed.

Ltac inv_mbind H :=
  let a := fresh "a" in
  let st := fresh "st" in
  let H1 := fresh "H" in
  apply mbind_ok in H; destruct H as (a & st & H1 & H).

Ltac inv_lift H :=
  let E := fresh "E" in
  apply lift_ok in H; destruct H as [H E]; subst.

(** ** Verification of an artifact of the shape [generate_zk_proof] builds *)

Lemma verify_proof_dict (self_model_hash text summary : string)
    (pi_a pi_b pi_c s0 s1 s2 s3 : pyval) (commitment : string)
    (circuit_inputs : pydict) :
  verify_inference self_model_hash text summary
    (proof_dict pi_a pi_b pi_c [s0; s1; s2; s3] commitment circuit_inputs)
  = Ok (py_eq_str s0 (str_prefix 16 (sha256_hex text))
        && py_eq_str s1 (str_prefix 16 (sha256_hex summary))
        && py_eq_str s2 (str_prefix 16 self_model_hash)
        && String.eqb commitment (sha256_hex (combined_items circuit_inputs))).
Proof.
  unfold verify_inference, verify_inference_body, signal_eq, py_and,
    _verify_commitment, _generate_commitment, proof_dict.
  cbn.
  destruct (py_eq_str s0 _); cbn; [|reflexivity].
  destruct (py_eq_str s1 _); cbn; [|reflexivity].
  destruct (py_eq_str s2 _); cbn; [|reflexivity].
  destruct (String.eqb commitment _); reflexivity.
Qed.

Section SynthesisFacts.

Context {RB : RandomBackend}.

  (** What a successful run of [generate_zk_proof] went through. *)
Lemma generate_zk_proof_ok text summary metadata st proof st' :
    generate_zk_proof text summary metadata st = (Ok proof, st') ->
    exists ih oh mh il ol vk pi_a pi_b pi_c s0 s1 s2 s3 st1 st2,
      getitem metadata "input_hash" = Ok ih /\
      getitem metadata "output_hash" = Ok oh /\
      getitem metadata "model_hash" = Ok mh /\
      getitem metadata "input_length" = Ok il /\
      getitem metadata "output_length" = Ok ol /\
      getitem metadata "verification_key" = Ok vk /\
      let ci := circuit_inputs_dict ih oh mh (PStr (py_str il))
                  (PStr (py_str ol)) vk in
      let c := sha256_hex (combined_items ci) in
      _generate_proof_point c "a" st = (Ok pi_a, st1) /\
      _generate_proof_matrix c "b" st1 = (Ok pi_b, st2) /\
      _generate_proof_point c "c" st2 = (Ok pi_c, st') /\
      getslice ih 16 = Ok s0 /\
      getslice oh 16 = Ok s1 /\
      getslice mh 16 = Ok s2 /\
      getslice vk 16 = Ok s3 /\
      proof = proof_dict pi_a pi_b pi_c [s0; s1; s2; s3] c ci.
  Proof.
    unfold generate_zk_proof.
    destruct (generate_zk_proof_body text summary metadata st)
      as [[p|e] st0] eqn:E; intros H; inversion H; subst; clear H.
    unfold generate_zk_proof_body in E.
    inv_mbind E. inv_lift H. inv_mbind E. inv_lift H0.
    inv_mbind E. inv_lift H1. inv_mbind E. inv_lift H2.
    inv_mbind E. inv_lift H3. inv_mbind E. inv_lift H4.
    inv_mbind E. inv_lift H5. cbn in H5. inversion H5; subst; clear H5.
    inv_mbind E. inv_mbind E. inv_mbind E.
    unfold truncated in E.
    inv_mbind E. inv_lift H8. rewrite H in H8. cbn in H8.
    inv_mbind E. inv_lift H9. rewrite H0 in H9. cbn in H9.
    inv_mbind E. inv_lift H10. rewrite H1 in H10. cbn in H10.
    inv_mbind E. inv_lift H11. rewrite H4 in H11. cbn in H11.
    unfold mret in E. inversion E; subst; clear E.
    repeat eexists; eauto.
  Qed.

End SynthesisFacts.

Section Binding.

Context {RB : RandomBackend}.

  (** Where synthesis returns an artifact, the artifact binds: an artifact
      synthesised from the metadata that [run_inference] builds for a text, a
      summary and the model hash is accepted when that text and summary are
      verified against it under the same model hash. Whether synthesis
      returns is settled by [synthesis_outcome] below. *)
Lemma binding_soundness
      (self_model_hash text summary : string)
      (max_length min_length timestamp : Z)
      (st st' : rng_state) (proof : pyval) :
    generate_zk_proof text summary
      (run_inference_metadata self_model_hash text summary
         max_length min_length timestamp) st = (Ok proof, st') ->
    verify_inference self_model_hash text summary proof = Ok true.
  Proof.
    intros H. apply generate_zk_proof_ok in H.
    destruct H as (ih & oh & mh & il & ol & vk & pa & pb & pc & s0 & s1 & s2
                   & s3 & st1 & st2 & Hih & Hoh & Hmh & Hil & Hol & Hvk & H).
    cbn zeta in H.
    destruct H as (_ & _ & _ & H0 & H1 & H2 & _ & ->).
    cbn in Hih, Hoh, Hmh.
    inversion Hih; inversion Hoh; inversion Hmh; subst; clear Hih Hoh Hmh.
    cbn in H0, H1, H2.
    inversion H0; inversion H1; inversion H2; subst.
    rewrite verify_proof_dict. cbn.
    rewrite !String.eqb_refl. reflexivity.
  Qed.

  (** C2 (tamper detection, as the code has it). An artifact synthesised for
      (text, summary, model hash) is refused, with [False], for any
      (text', summary', model hash') whose truncated input digest, truncated
      output digest or truncated model hash differs from the original one. *)
Theorem tamper_detection
      (self_model_hash text summary : string)
      (max_length min_length timestamp : Z)
      (st st' : rng_state) (proof : pyval)
      (self_model_hash' text' summary' : string) :
    generate_zk_proof text summary
      (run_inference_metadata self_model_hash text summary
         max_length min_length timestamp) st = (Ok proof, st') ->
    str_prefix 16 (sha256_hex text') <> str_prefix 16 (sha256_hex text) \/
    str_prefix 16 (sha256_hex summary') <> str_prefix 16 (sha256_hex summary) \/
    str_prefix 16 self_model_hash' <> str_prefix 16 self_model_hash ->
    verify_inference self_model_hash' text' summary' proof = Ok false.
  Proof.
    intros H Hdiff. apply generate_zk_proof_ok in H.
    destruct H as (ih & oh & mh & il & ol & vk & pa & pb & pc & s0 & s1 & s2
                   & s3 & st1 & st2 & Hih & Hoh & Hmh & Hil & Hol & Hvk & H).
    cbn zeta in H.
    destruct H as (_ & _ & _ & H0 & H1 & H2 & _ & ->).
    cbn in Hih, Hoh, Hmh.
    inversion Hih; inversion Hoh; inversion Hmh; subst; clear Hih Hoh Hmh.
    cbn in H0, H1, H2.
    inversion H0; inversion H1; inversion H2; subst.
    rewrite verify_proof_dict. cbn. f_equal.
    destruct Hdiff as [N | [N | N]].
    - apply not_eq_sym, String.eqb_neq in N. rewrite N. reflexivity.
    - apply not_eq_sym, String.eqb_neq in N. rewrite N.
      now rewrite andb_false_r.
    - apply not_eq_sym, String.eqb_neq in N. rewrite N.
      now rewrite andb_false_r.
  Qed.

End Binding.

(** ** Order of strings and the sorted items of a dict *)

Lemma ascii_compare_trans_lt a b c :
  Ascii.compare a b = Lt -> Ascii.compare b c = Lt -> Ascii.compare a c = Lt.
Proof.
  unfold Ascii.compare. rewrite !N.compare_lt_iff. lia.
Qed.

Lemma string_compare_refl s : String.compare s s = Eq.
Proof.
  induction s as [|c s IH]; simpl; [reflexivity|].
  unfold Ascii.compare. now rewrite N.compare_refl.
Qed.

Lemma string_compare_trans_lt s1 : forall s2 s3,
  String.compare s1 s2 = Lt -> String.compare s2 s3 = Lt ->
  String.compare s1 s3 = Lt.
Proof.
  induction s1 as [|c1 s1 IH]; intros [|c2 s2] [|c3 s3]; simpl;
    try congruence.
  destruct (Ascii.compare c1 c2) eqn:E12; try discriminate;
  destruct (Ascii.compare c2 c3) eqn:E23; try discriminate; intros H1 H2.
  - apply Ascii.compare_eq_iff in E12, E23. subst.
    unfold Ascii.compare. rewrite N.compare_refl. eauto.
  - apply Ascii.compare_eq_iff in E12. subst. now rewrite E23.
  - apply Ascii.compare_eq_iff in E23. subst. now rewrite E12.
  - now rewrite (ascii_compare_trans_lt _ _ _ E12 E23).
Qed.

Lemma string_leb_trans s1 s2 s3 :
  String.leb s1 s2 = true -> String.leb s2 s3 = true ->
  String.leb s1 s3 = true.
Proof.
  unfold String.leb.
  destruct (String.compare s1 s2) eqn:E12; try discriminate;
  destruct (String.compare s2 s3) eqn:E23; try discriminate; intros _ _.
  - apply String.compare_eq_iff in E12, E23. subst.
    now rewrite string_compare_refl.
  - apply String.compare_eq_iff in E12. subst. now rewrite E23.
  - apply String.compare_eq_iff in E23. subst. now rewrite E12.
  - now rewrite (string_compare_trans_lt _ _ _ E12 E23).
Qed.

Lemma string_leb_false s1 s2 :
  String.leb s1 s2 = false -> String.leb s2 s1 = true.
Proof.
  intros H. destruct (String.leb_total s1 s2); congruence.
Qed.

Lemma insert_item_perm x l : Permutation (insert_item x l) (x :: l).
Proof.
  induction l as [|y l IH]; simpl; [reflexivity|].
  destruct (String.leb (fst x) (fst y)); [reflexivity|].
  rewrite IH. apply perm_swap.
Qed.

Lemma sorted_items_perm d : Permutation (sorted_items d) d.
Proof.
  induction d as [|x d IH]; simpl; [reflexivity|].
  unfold sorted_items in IH. rewrite insert_item_perm. now constructor.
Qed.

Lemma insert_item_sorted x l :
  StronglySorted key_le l -> StronglySorted key_le (insert_item x l).
Proof.
  induction 1 as [|y l Hl IH Hy]; simpl.
  - repeat constructor.
  - destruct (String.leb (fst x) (fst y)) eqn:E.
    + constructor; [now constructor|].
      constructor; [exact E|].
      eapply Forall_impl; [|exact Hy].
      intros z Hz. unfold key_le in *. eapply string_leb_trans; eauto.
    + constructor; [exact IH|].
      eapply Permutation_Forall;
        [symmetry; apply insert_item_perm|].
      constructor; [|exact Hy].
      now apply string_leb_false.
Qed.

Lemma sorted_items_sorted d : StronglySorted key_le (sorted_items d).
Proof.
  induction d as [|x d IH]; simpl; [constructor|].
  now apply insert_item_sorted.
Qed.

Lemma dict_get_in d k v :
  dict_get d k = Some v -> In k (map fst d).
Proof.
  induction d as [|[k' v'] d IH]; simpl; [discriminate|].
  destruct (String.eqb_spec k' k); auto.
Qed.

Lemma dict_get_notin d k :
  ~ In k (map fst d) -> dict_get d k = None.
Proof.
  intros H. destruct (dict_get d k) eqn:E; [|reflexivity].
  now apply dict_get_in in E.
Qed.

Lemma dict_get_perm d1 d2 k :
  wf_dict d1 -> Permutation d1 d2 -> dict_get d1 k = dict_get d2 k.
Proof.
  unfold wf_dict. intros Hwf Hp. revert Hwf.
  induction Hp as [|[k' v'] l l' Hp IH|[k1 v1] [k2 v2] l|l l' l'' H1 IH1 H2 IH2];
    intros Hwf; simpl in *.
  - reflexivity.
  - inversion Hwf; subst. now rewrite IH.
  - inversion Hwf as [|? ? Hn _]; subst.
    destruct (String.eqb_spec k1 k), (String.eqb_spec k2 k); subst;
      try reflexivity.
    exfalso. apply Hn. now left.
  - rewrite IH1 by assumption. apply IH2.
    eapply Permutation_NoDup; [|exact Hwf]. now apply Permutation_map.
Qed.

Lemma wf_dict_perm d1 d2 : wf_dict d1 -> Permutation d1 d2 -> wf_dict d2.
Proof.
  unfold wf_dict. intros H Hp.
  eapply Permutation_NoDup; [|exact H]. now apply Permutation_map.
Qed.

(** Two key-sorted dicts that map every key alike are the same list. *)
Lemma sorted_dict_unique l1 : forall l2,
  StronglySorted key_le l1 -> StronglySorted key_le l2 ->
  wf_dict l1 -> wf_dict l2 ->
  (forall k, dict_get l1 k = dict_get l2 k) ->
  l1 = l2.
Proof.
  unfold wf_dict.
  induction l1 as [|[k1 v1] t1 IH]; intros [|[k2 v2] t2] S1 S2 W1 W2 Hget.
  - reflexivity.
  - specialize (Hget k2). simpl in Hget. rewrite String.eqb_refl in Hget.
    discriminate.
  - specialize (Hget k1). simpl in Hget. rewrite String.eqb_refl in Hget.
    discriminate.
  - inversion S1 as [|? ? S1' F1]; inversion S2 as [|? ? S2' F2]; subst.
    simpl in W1, W2.
    inversion W1 as [|? ? N1 W1']; inversion W2 as [|? ? N2 W2']; subst.
    assert (Hk : k1 = k2).
    { destruct (String.eqb_spec k1 k2) as [|Hne]; [assumption|].
      assert (L21 : String.leb k2 k1 = true).
      { pose proof (Hget k1) as G. simpl in G. rewrite String.eqb_refl in G.
        destruct (String.eqb_spec k2 k1); [congruence|].
        symmetry in G. apply dict_get_in in G.
        apply in_map_iff in G. destruct G as (x & <- & Hx).
        rewrite Forall_forall in F2. exact (F2 x Hx). }
      assert (L12 : String.leb k1 k2 = true).
      { pose proof (Hget k2) as G. simpl in G. rewrite String.eqb_refl in G.
        destruct (String.eqb_spec k1 k2); [congruence|].
        apply dict_get_in in G.
        apply in_map_iff in G. destruct G as (x & <- & Hx).
        rewrite Forall_forall in F1. exact (F1 x Hx). }
      now apply String.leb_antisym. }
    subst k2.
    pose proof (Hget k1) as G. simpl in G. rewrite !String.eqb_refl in G.
    inversion G; subst v2. f_equal.
    apply IH; try assumption.
    intros k. destruct (String.eqb_spec k1 k) as [<-|Hne].
    + now rewrite !dict_get_notin.
    + specialize (Hget k). simpl in Hget.
      destruct (String.eqb_spec k1 k); [contradiction|assumption].
Qed.

Lemma sorted_items_get d k :
  wf_dict d -> dict_get (sorted_items d) k = dict_get d k.
Proof.
  intros H. symmetry. apply dict_get_perm; [assumption|].
  symmetry. apply sorted_items_perm.
Qed.

Lemma sorted_items_unique c1 c2 :
  wf_dict c1 -> wf_dict c2 ->
  (forall k, dict_get c1 k = dict_get c2 k) ->
  sorted_items c1 = sorted_items c2.
Proof.
  intros W1 W2 Hget.
  apply sorted_dict_unique; try apply sorted_items_sorted.
  - eapply wf_dict_perm; [exact W1|]. symmetry. apply sorted_items_perm.
  - eapply wf_dict_perm; [exact W2|]. symmetry. apply sorted_items_perm.
  - intros k. now rewrite !sorted_items_get.
Qed.

(** C3 (commitment order-independence). Two commitment-input dicts with the
    same keys and the same value under every key, whatever the order in
    which their entries were inserted, have the same commitment. *)
Theorem commitment_order_independence (c1 c2 : pydict) :
  wf_dict c1 -> wf_dict c2 ->
  (forall k, dict_get c1 k = dict_get c2 k) ->
  _generate_commitment (PDict c1) = _generate_commitment (PDict c2).
Proof.
  intros W1 W2 Hget. unfold _generate_commitment, combined_items. simpl.
  now rewrite (sorted_items_unique c1 c2).
Qed.

(** An instance of C3: the six circuit inputs in the order of the source and
    in reverse order. *)
Lemma commitment_order_independence_witness :
  _generate_commitment
    (PDict (circuit_inputs_dict (PStr "aa") (PStr "bb") (PStr "cc")
              (PStr "12") (PStr "6") (PStr "dd")))
  = _generate_commitment
    (PDict (rev (circuit_inputs_dict (PStr "aa") (PStr "bb") (PStr "cc")
                   (PStr "12") (PStr "6") (PStr "dd")))).
Proof.
  apply commitment_order_independence.
  - unfold wf_dict. simpl.
    repeat (constructor; [simpl; intuition discriminate|]). constructor.
  - unfold wf_dict. simpl.
    repeat (constructor; [simpl; intuition discriminate|]). constructor.
  - intros k. apply dict_get_perm; [|apply Permutation_rev].
    unfold wf_dict. simpl.
    repeat (constructor; [simpl; intuition discriminate|]). constructor.
Defined.

(** ** Determinism of synthesis *)

Lemma agree_fst {S A} (x y : result A * S) : agree x y -> fst x = fst y.
Proof. intros [->|(e & -> & ->)]; reflexivity. Qed.

Lemma agree_mbind {S A B} (m : Rand S A) (k : A -> Rand S B) st1 st2 :
  agree (m st1) (m st2) -> agree (mbind m k st1) (mbind m k st2).
Proof.
  unfold agree, mbind. intros [E|(e & E1 & E2)].
  - rewrite E. now left.
  - right. exists e.
    destruct (m st1) as [[a|e1] s1], (m st2) as [[b|e2] s2]; simpl in *;
      try discriminate.
    inversion E1; inversion E2; subst. auto.
Qed.

Lemma agree_lift_mbind {S A B} (r : result A) (k : A -> Rand S B) st1 st2 :
  (forall a, agree (k a st1) (k a st2)) ->
  agree (mbind (lift r) k st1) (mbind (lift r) k st2).
Proof.
  intros H. unfold mbind, lift. destruct r as [a|e]; [apply H|].
  right. exists e. auto.
Qed.

Section Determinism.

Context {RB : RandomBackend}.

Lemma np_random_seed_agree {B} seed (k : unit -> Rand rng_state B) st1 st2 :
  agree (mbind (np_random_seed seed) k st1) (mbind (np_random_seed seed) k st2).
Proof.
  unfold mbind, np_random_seed.
  destruct ((0 <=? seed) && (seed <=? 2 ^ 32 - 1))%Z.
  - now left.
  - right. exists ValueError. auto.
Qed.

Lemma generate_proof_point_agree commitment suffix st1 st2 :
  agree (_generate_proof_point commitment suffix st1)
        (_generate_proof_point commitment suffix st2).
Proof.
  unfold _generate_proof_point.
  apply agree_lift_mbind. intros n. apply np_random_seed_agree.
Qed.

(** C4 (synthesis determinism). Whatever state the module-level generator is
    in, [generate_zk_proof] on the same metadata has the same outcome: the
    same artifact, with all its fields, or a failure in both runs. In
    particular a second call, which starts from the state the first one
    left, repeats the first. *)
Theorem synthesis_determinism (text summary : string) (metadata : pyval)
    (st1 st2 : rng_state) :
  fst (generate_zk_proof text summary metadata st1)
  = fst (generate_zk_proof text summary metadata st2).
Proof.
  assert (H : agree (generate_zk_proof_body text summary metadata st1)
                    (generate_zk_proof_body text summary metadata st2)).
  { unfold generate_zk_proof_body.
    do 7 (apply agree_lift_mbind; intros ?).
    apply agree_mbind. apply generate_proof_point_agree. }
  unfold generate_zk_proof.
  destruct H as [->|(e & E1 & E2)]; [reflexivity|].
  destruct (generate_zk_proof_body text summary metadata st1) as [[p1|e1] s1],
           (generate_zk_proof_body text summary metadata st2) as [[p2|e2] s2];
    simpl in *; try discriminate; reflexivity.
Qed.

End Determinism.

(** ** Shape of the proof components *)

Section Shapes.

Context {RB : RandomBackend}.

Lemma draw_strs_ok n : forall st,
  exists l st', draw_strs n st = (Ok l, st') /\ List.length l = n.
Proof.
  induction n as [|n IH]; intros st; simpl.
  - exists [], st. auto.
  - unfold mbind at 1. unfold np_random_randint.
    destruct (randint 1 1000 st) as [v st1].
    destruct (IH st1) as (l & st' & E & Hl).
    unfold mbind. rewrite E. exists (PStr (str_of_int v) :: l), st'.
    simpl. auto.
Qed.

Lemma draw_rows_ok n m : forall st,
  exists rows st', draw_rows n m st = (Ok rows, st') /\
    List.length rows = n /\ forallb (is_vector m) rows = true.
Proof.
  induction n as [|n IH]; intros st; simpl.
  - exists [], st. auto.
  - destruct (draw_strs_ok m st) as (row & st1 & E1 & Hrow).
    destruct (IH st1) as (rows & st' & E & Hl & Hv).
    unfold mbind. rewrite E1, E.
    exists (PList row :: rows), st'. simpl.
    rewrite Hrow, Nat.eqb_refl, Hl, Hv. auto.
Qed.

Lemma generate_proof_point_shape commitment suffix st p st' :
  _generate_proof_point commitment suffix st = (Ok p, st') ->
  is_vector 3 p = true.
Proof.
  unfold _generate_proof_point. intros H.
  inv_mbind H. inv_mbind H. inv_mbind H.
  destruct (draw_strs_ok 3 st1) as (l & s & E & Hl).
  rewrite E in H2. inversion H2; subst.
  unfold mret in H. inversion H; subst. simpl.
  now rewrite Hl.
Qed.

Lemma generate_proof_matrix_shape commitment suffix st p st' :
  _generate_proof_matrix commitment suffix st = (Ok p, st') ->
  is_matrix 3 2 p = true.
Proof.
  unfold _generate_proof_matrix. intros H.
  inv_mbind H. inv_mbind H. inv_mbind H.
  destruct (draw_rows_ok 3 2 st1) as (rows & s & E & Hl & Hv).
  rewrite E in H2. inversion H2; subst.
  unfold mret in H. inversion H; subst. simpl.
  now rewrite Hl, Hv.
Qed.

(** C5 (artifact invariants). Every artifact that [generate_zk_proof] returns
    is the dict of the source with (a) [commitment] the digest of the
    canonical form of its [circuit_inputs]: names sorted, each joined to its
    value by a colon, no separator between pairs; (b) exactly four public
    signals, the first three the 16-character prefixes of [input_hash],
    [output_hash] and [model_hash] of the circuit inputs and the fourth that
    of [verification_key]; (c) [pi_a] and [pi_c] of 3 entries and [pi_b] of 3
    rows of 2 entries. *)
Theorem artifact_invariants (text summary : string) (metadata : pyval)
    (st st' : rng_state) (proof : pyval) :
  generate_zk_proof text summary metadata st = (Ok proof, st') ->
  exists pi_a pi_b pi_c s0 s1 s2 s3 commitment circuit_inputs,
    proof = proof_dict pi_a pi_b pi_c [s0; s1; s2; s3] commitment
              circuit_inputs /\
    commitment = sha256_hex (canonicalize circuit_inputs) /\
    (v <- getitem (PDict circuit_inputs) "input_hash" ;; getslice v 16)%result
      = Ok s0 /\
    (v <- getitem (PDict circuit_inputs) "output_hash" ;; getslice v 16)%result
      = Ok s1 /\
    (v <- getitem (PDict circuit_inputs) "model_hash" ;; getslice v 16)%result
      = Ok s2 /\
    (v <- getitem (PDict circuit_inputs) "verification_key" ;;
     getslice v 16)%result = Ok s3 /\
    is_vector 3 pi_a = true /\
    is_matrix 3 2 pi_b = true /\
    is_vector 3 pi_c = true.
Proof.
  intros H. apply generate_zk_proof_ok in H.
  destruct H as (ih & oh & mh & il & ol & vk & pa & pb & pc & s0 & s1 & s2
                 & s3 & st1 & st2 & Hih & Hoh & Hmh & Hil & Hol & Hvk & H).
  cbn zeta in H.
  destruct H as (Ha & Hb & Hc & H0 & H1 & H2 & H3 & ->).
  exists pa, pb, pc, s0, s1, s2, s3.
  eexists. eexists. split; [reflexivity|].
  split; [reflexivity|].
  cbn. repeat split; try assumption.
  - eapply generate_proof_point_shape; eauto.
  - eapply generate_proof_matrix_shape; eauto.
  - eapply generate_proof_point_shape; eauto.
Qed.

End Shapes.

(** ** Failure of synthesis on incomplete metadata *)

Section Failure.

Context {RB : RandomBackend}.

Lemma generate_zk_proof_raise text summary metadata st e st' :
  generate_zk_proof_body text summary metadata st = (Raise e, st') ->
  generate_zk_proof text summary metadata st = (Raise RuntimeError, st').
Proof. unfold generate_zk_proof. now intros ->. Qed.

(** C9 (failure of synthesis). For a metadata dict that lacks one of the
    fields [generate_zk_proof] reads, synthesis does not return an artifact:
    it raises the error of [generate_zk_proof], a [RuntimeError], and leaves
    the generator untouched. *)
Theorem synthesis_missing_field (text summary : string) (metadata : pydict)
    (field : string) (st : rng_state) :
  In field required_fields ->
  dict_get metadata field = None ->
  generate_zk_proof text summary (PDict metadata) st
  = (Raise RuntimeError, st).
Proof.
  intros Hin Hnone.
  apply generate_zk_proof_raise with (e := KeyError).
  unfold generate_zk_proof_body, mbind, lift, getitem.
  simpl in Hin.
  destruct (dict_get metadata "input_hash") eqn:E1; [|reflexivity].
  destruct (dict_get metadata "output_hash") eqn:E2; [|reflexivity].
  destruct (dict_get metadata "model_hash") eqn:E3; [|reflexivity].
  destruct (dict_get metadata "input_length") eqn:E4; [|reflexivity].
  destruct (dict_get metadata "output_length") eqn:E5; [|reflexivity].
  destruct (dict_get metadata "verification_key") eqn:E6; [|reflexivity].
  exfalso.
  repeat (destruct Hin as [<-|Hin]; [congruence|]).
  exact Hin.
Qed.

End Failure.

(** ** What [verify_inference] reads of an artifact *)

Lemma py_and_true x y : py_and x y = Ok true -> x = Ok true /\ y = Ok true.
Proof.
  unfold py_and. destruct x as [[|]|e]; simpl; intros H;
    try discriminate; auto.
Qed.

Lemma verify_inference_total self_model_hash text summary proof :
  exists b, verify_inference self_model_hash text summary proof = Ok b.
Proof. apply try_except_total. Qed.

(** An accepted artifact passed every test of the body. *)
Lemma verify_inference_true self_model_hash text summary proof :
  verify_inference self_model_hash text summary proof = Ok true ->
  exists signals commitment circuit_inputs,
    getitem proof "public_signals" = Ok signals /\
    getitem proof "commitment" = Ok commitment /\
    getitem proof "circuit_inputs" = Ok circuit_inputs /\
    py_contains proof "pi_a" = Ok true /\
    py_contains proof "pi_b" = Ok true /\
    py_contains proof "pi_c" = Ok true /\
    py_len signals = Ok 4%Z /\
    signal_eq proof 0 (str_prefix 16 (sha256_hex text)) = Ok true /\
    signal_eq proof 1 (str_prefix 16 (sha256_hex summary)) = Ok true /\
    signal_eq proof 2 (str_prefix 16 self_model_hash) = Ok true /\
    _verify_commitment commitment circuit_inputs = Ok true.
Proof.
  unfold verify_inference, try_except.
  destruct (verify_inference_body self_model_hash text summary proof)
    as [b|e] eqn:E; intros H; inversion H; subst; clear H.
  unfold verify_inference_body in E.
  apply rbind_ok in E. destruct E as (hm & Hhm & E).
  apply rbind_ok in E. destruct E as (cv & Hcv & E).
  apply rbind_ok in E. destruct E as (sv & Hsv & E).
  inversion E as [Hand]; clear E.
  apply andb_prop in Hand. destruct Hand as [Hand ->].
  apply andb_prop in Hand. destruct Hand as [-> ->].
  apply py_and_true in Hhm. destruct Hhm as [S0 Hhm].
  apply py_and_true in Hhm. destruct Hhm as [S1 S2].
  apply rbind_ok in Hcv. destruct Hcv as (c & Hc & Hcv).
  apply rbind_ok in Hcv. destruct Hcv as (ci & Hci & Hcv).
  apply py_and_true in Hsv. destruct Hsv as [Pa Hsv].
  apply py_and_true in Hsv. destruct Hsv as [Pb Hsv].
  apply py_and_true in Hsv. destruct Hsv as [Pc Hsv].
  apply rbind_ok in Hsv. destruct Hsv as (sg & Hsg & Hsv).
  apply rbind_ok in Hsv. destruct Hsv as (n & Hn & Hsv).
  inversion Hsv as [H4]. apply Z.eqb_eq in H4. subst n.
  exists sg, c, ci. repeat split; assumption.
Qed.

(** C6 (structural rejection, as the code has it). An artifact that lacks
    one of the fields [public_signals], [commitment], [circuit_inputs],
    [pi_a], [pi_b], [pi_c], or whose [public_signals] do not have length 4,
    is refused: [verify_inference] returns [False]. *)
Theorem structural_rejection (self_model_hash text summary : string)
    (proof : pyval) :
  (exists field, In field checked_fields /\
                 getitem proof field = Raise KeyError) \/
  (exists signals, getitem proof "public_signals" = Ok signals /\
                   py_len signals <> Ok 4%Z) ->
  verify_inference self_model_hash text summary proof = Ok false.
Proof.
  intros H.
  destruct (verify_inference_total self_model_hash text summary proof)
    as [[|] Hb]; [exfalso|exact Hb].
  apply verify_inference_true in Hb.
  destruct Hb as (sg & c & ci & Hsg & Hc & Hci & Pa & Pb & Pc & Hlen & _).
  destruct H as [(field & Hin & Hf)|(sg' & Hsg' & Hlen')].
  - assert (Hd : exists d, proof = PDict d /\ dict_get d field = None).
    { destruct proof; simpl in Hf; try discriminate.
      exists d. split; [reflexivity|].
      destruct (dict_get d field); [discriminate|reflexivity]. }
    destruct Hd as (d & -> & Hnone).
    simpl in Hin, Hsg, Hc, Hci, Pa, Pb, Pc. unfold dict_has in Pa, Pb, Pc.
    repeat (destruct Hin as [<-|Hin];
            [rewrite Hnone in *; discriminate|]).
    exact Hin.
  - rewrite Hsg in Hsg'. inversion Hsg'; subst. contradiction.
Qed.

(** C7 (verification is total, as the code has it). For every text, summary
    and artifact, of whatever type and however incomplete, [verify_inference]
    returns a boolean and raises nothing; it returns what the body computed,
    and [False] when the body raised. *)
Theorem verification_total (self_model_hash text summary : string)
    (proof : pyval) :
  exists b,
    verify_inference self_model_hash text summary proof = Ok b /\
    match verify_inference_body self_model_hash text summary proof with
    | Ok b' => b = b'
    | Raise _ => b = false
    end.
Proof.
  unfold verify_inference, try_except.
  destruct (verify_inference_body self_model_hash text summary proof);
    eauto.
Qed.

(** C10 (verification ignores the proof components). Two artifacts that map
    every key other than [pi_a], [pi_b], [pi_c] alike, and that both hold
    these three keys, get the same answer from [verify_inference]. *)
Theorem verification_ignores_points (self_model_hash text summary : string)
    (d1 d2 : pydict) :
  (forall k, k <> "pi_a" -> k <> "pi_b" -> k <> "pi_c" ->
             dict_get d1 k = dict_get d2 k) ->
  dict_has d1 "pi_a" = true -> dict_has d1 "pi_b" = true ->
  dict_has d1 "pi_c" = true ->
  dict_has d2 "pi_a" = true -> dict_has d2 "pi_b" = true ->
  dict_has d2 "pi_c" = true ->
  verify_inference self_model_hash text summary (PDict d1)
  = verify_inference self_model_hash text summary (PDict d2).
Proof.
  intros Hget A1 B1 C1 A2 B2 C2.
  unfold verify_inference, verify_inference_body, signal_eq, getitem,
    py_contains.
  rewrite A1, B1, C1, A2, B2, C2.
  rewrite (Hget "public_signals") by discriminate.
  rewrite (Hget "commitment") by discriminate.
  rewrite (Hget "circuit_inputs") by discriminate.
  reflexivity.
Qed.

(** ** The seed read off a commitment *)

Lemma string_length_append s1 s2 :
  String.length (s1 ++ s2) = (String.length s1 + String.length s2)%nat.
Proof. induction s1 as [|c s1 IH]; simpl; congruence. Qed.

Lemma substring_append_prefix s1 s2 :
  substring 0 (String.length s1) (s1 ++ s2) = s1.
Proof. induction s1 as [|c s1 IH]; simpl; [now destruct s2|congruence]. Qed.

Lemma hex_value_digit d :
  (0 <= d < 16)%Z -> hex_value (hex_digit d) = Some d.
Proof.
  intros H.
  assert (E : (d = 0 \/ d = 1 \/ d = 2 \/ d = 3 \/ d = 4 \/ d = 5 \/ d = 6 \/
               d = 7 \/ d = 8 \/ d = 9 \/ d = 10 \/ d = 11 \/ d = 12 \/
               d = 13 \/ d = 14 \/ d = 15)%Z) by lia.
  repeat (destruct E as [->|E]; [reflexivity|]). now subst.
Qed.

Lemma hex_acc_app s1 : forall acc s2,
  hex_acc acc (s1 ++ s2) = (a <- hex_acc acc s1 ;; hex_acc a s2)%result.
Proof.
  induction s1 as [|c s1 IH]; intros acc s2; simpl; [reflexivity|].
  destruct (hex_value c); [apply IH|reflexivity].
Qed.

Lemma hex_digits_length n : forall x,
  String.length (SHA256.hex_digits n x) = n.
Proof.
  induction n as [|n IH]; intros x; simpl; [reflexivity|].
  rewrite string_length_append, IH. simpl. lia.
Qed.

Lemma hex_acc_digits n : forall x acc,
  hex_acc acc (SHA256.hex_digits n x)
  = Ok (acc * 16 ^ Z.of_nat n + x mod 16 ^ Z.of_nat n)%Z.
Proof.
  induction n as [|n IH]; intros x acc.
  - simpl. rewrite Z.mod_1_r. f_equal. lia.
  - cbn [SHA256.hex_digits]. rewrite hex_acc_app, IH. cbn [rbind].
    unfold str1. cbn [hex_acc].
    rewrite hex_value_digit by (apply Z.mod_pos_bound; lia).
    f_equal. rewrite Nat2Z.inj_succ, Z.pow_succ_r by lia.
    rewrite (Z.rem_mul_r x 16 (16 ^ Z.of_nat n)) by lia. lia.
Qed.

Lemma int_base16_hex8 x : int_base16 (SHA256.hex8 x) = Ok (SHA256.wrap x).
Proof.
  unfold int_base16, SHA256.hex8.
  pose proof (hex_digits_length 8 (SHA256.wrap x)) as L.
  destruct (SHA256.hex_digits 8 (SHA256.wrap x)) eqn:E; [discriminate|].
  rewrite <- E, hex_acc_digits. f_equal.
  unfold SHA256.wrap. change (16 ^ Z.of_nat 8)%Z with (2 ^ 32)%Z.
  rewrite Z.mod_mod by lia. lia.
Qed.

Lemma hexdigest_prefix s :
  str_prefix 8 (sha256_hex s)
  = SHA256.hex8 (SHA256.h0 (SHA256.digest (encode_utf8 s))).
Proof.
  unfold sha256_hex, SHA256.hexdigest_of, str_prefix.
  rewrite <- (hex_digits_length 8
                (SHA256.wrap (SHA256.h0 (SHA256.digest (encode_utf8 s))))) at 1.
  apply substring_append_prefix.
Qed.

(** The first eight characters of a digest always parse, to a 32-bit value;
    that value is 2^32 - 1 exactly for the prefix ffffffff. *)
Lemma int_base16_digest s :
  exists n, int_base16 (str_prefix 8 (sha256_hex s)) = Ok n /\
            (0 <= n <= 2 ^ 32 - 1)%Z /\
            (n = 2 ^ 32 - 1 <-> str_prefix 8 (sha256_hex s) = "ffffffff")%Z.
Proof.
  rewrite hexdigest_prefix, int_base16_hex8.
  set (w := SHA256.h0 (SHA256.digest (encode_utf8 s))).
  exists (SHA256.wrap w). split; [reflexivity|].
  assert (B : (0 <= SHA256.wrap w < 2 ^ 32)%Z)
    by (apply Z.mod_pos_bound; lia).
  split; [lia|]. split.
  - intros E. unfold SHA256.hex8. rewrite E. reflexivity.
  - intros E.
    assert (P : int_base16 (SHA256.hex8 w) = Ok (2 ^ 32 - 1)%Z)
      by (rewrite E; reflexivity).
    rewrite int_base16_hex8 in P. now inversion P.
Qed.

Section Seeds.

Context {RB : RandomBackend}.

Lemma np_random_seed_ok seed st :
  (0 <= seed <= 2 ^ 32 - 1)%Z ->
  np_random_seed seed st = (Ok tt, seed_state seed).
Proof.
  intros H. unfold np_random_seed.
  destruct (Z.leb_spec 0 seed), (Z.leb_spec seed (2 ^ 32 - 1)); simpl;
    try lia; reflexivity.
Qed.

Lemma np_random_seed_refused seed st :
  (seed < 0 \/ 2 ^ 32 - 1 < seed)%Z ->
  np_random_seed seed st = (Raise ValueError, st).
Proof.
  intros H. unfold np_random_seed.
  destruct (Z.leb_spec 0 seed), (Z.leb_spec seed (2 ^ 32 - 1)); simpl;
    try lia; reflexivity.
Qed.

(** pi_a and pi_c: three draws from the generator seeded with the value of
    the first eight hexadecimal characters of the commitment. *)
Lemma generate_proof_point_seed commitment suffix n st :
  int_base16 (str_prefix 8 commitment) = Ok n ->
  (0 <= n <= 2 ^ 32 - 1)%Z ->
  _generate_proof_point commitment suffix st
  = (point <- draw_strs 3 ;; mret (PList point))%rand (seed_state n).
Proof.
  intros Hn Hr. unfold _generate_proof_point.
  unfold mbind at 1. unfold lift. rewrite Hn.
  unfold mbind at 1. rewrite np_random_seed_ok by assumption.
  reflexivity.
Qed.

(** pi_b: three rows of two draws from the generator seeded with that value
    plus the length of the suffix, when numpy accepts the sum as a seed. *)
Lemma generate_proof_matrix_seed commitment suffix n st :
  int_base16 (str_prefix 8 commitment) = Ok n ->
  (0 <= n + Z.of_nat (String.length suffix) <= 2 ^ 32 - 1)%Z ->
  _generate_proof_matrix commitment suffix st
  = (rows <- draw_rows 3 2 ;; mret (PList rows))%rand
      (seed_state (n + Z.of_nat (String.length suffix))).
Proof.
  intros Hn Hr. unfold _generate_proof_matrix.
  unfold mbind at 1. unfold lift. rewrite Hn.
  unfold mbind at 1. rewrite np_random_seed_ok by assumption.
  reflexivity.
Qed.

Lemma generate_proof_matrix_refused commitment suffix n st :
  int_base16 (str_prefix 8 commitment) = Ok n ->
  (2 ^ 32 - 1 < n + Z.of_nat (String.length suffix))%Z ->
  _generate_proof_matrix commitment suffix st = (Raise ValueError, st).
Proof.
  intros Hn Hr. unfold _generate_proof_matrix.
  unfold mbind at 1. unfold lift. rewrite Hn.
  unfold mbind at 1. rewrite np_random_seed_refused by lia.
  reflexivity.
Qed.

Lemma int_base16_ffffffff tail :
  int_base16 (str_prefix 8 ("ffffffff" ++ tail)) = Ok 4294967295%Z.
Proof.
  unfold str_prefix.
  change 8%nat with (String.length "ffffffff").
  now rewrite (substring_append_prefix "ffffffff" tail).
Qed.

(** C8 (derivation of the proof points), where the code departs from it. On
    a commitment that starts with ffffffff, pi_a and pi_c are drawn from the
    generator seeded with 4294967295, and the seed of pi_b, 4294967295 + 1,
    is refused by [np.random.seed]: no pi_b is drawn, [ValueError] is
    raised. *)
Theorem proof_matrix_seed_overflow (tail : string) (st : rng_state) :
  _generate_proof_point ("ffffffff" ++ tail) "a" st
  = (point <- draw_strs 3 ;; mret (PList point))%rand
      (seed_state 4294967295) /\
  _generate_proof_matrix ("ffffffff" ++ tail) "b" st = (Raise ValueError, st).
Proof.
  split.
  - apply generate_proof_point_seed; [apply int_base16_ffffffff|lia].
  - eapply generate_proof_matrix_refused;
      [apply int_base16_ffffffff|simpl; lia].
Qed.

End Seeds.

(** ** When synthesis returns *)

Lemma mbind_lift_ok {S A B} (a : A) (k : A -> Rand S B) :
  mbind (lift (Ok a)) k = k a.
Proof. reflexivity. Qed.

Section Outcome.

Context {RB : RandomBackend}.

Lemma generate_zk_proof_body_inference
    self_model_hash text summary max_length min_length timestamp :
  generate_zk_proof_body text summary
    (run_inference_metadata self_model_hash text summary
       max_length min_length timestamp)
  = (let c := inference_commitment self_model_hash text summary in
     pi_a <- _generate_proof_point c "a" ;;
     pi_b <- _generate_proof_matrix c "b" ;;
     pi_c <- _generate_proof_point c "c" ;;
     mret (proof_dict pi_a pi_b pi_c
             [PStr (str_prefix 16 (sha256_hex text));
              PStr (str_prefix 16 (sha256_hex summary));
              PStr (str_prefix 16 self_model_hash);
              PStr (str_prefix 16
                      (_generate_verification_key self_model_hash text
                         summary))]
             c
             (circuit_inputs_dict
                (PStr (sha256_hex text)) (PStr (sha256_hex summary))
                (PStr self_model_hash)
                (PStr (str_of_int (Z.of_nat (String.length text))))
                (PStr (str_of_int (Z.of_nat (String.length summary))))
                (PStr (_generate_verification_key self_model_hash text
                         summary)))))%rand.
Proof.
  unfold generate_zk_proof_body, run_inference_metadata, truncated,
    inference_commitment, _generate_commitment.
  cbn [getitem dict_get rbind getslice py_items py_str py_repr
       String.eqb Ascii.eqb Bool.eqb].
  rewrite !mbind_lift_ok. reflexivity.
Qed.

(** Synthesis on the metadata of an inference returns an artifact unless the
    commitment starts with ffffffff, and then raises. *)
Lemma synthesis_outcome
    self_model_hash text summary max_length min_length timestamp st :
  let metadata := run_inference_metadata self_model_hash text summary
                    max_length min_length timestamp in
  let c := inference_commitment self_model_hash text summary in
  (str_prefix 8 c <> "ffffffff" ->
   exists proof st',
     generate_zk_proof text summary metadata st = (Ok proof, st')) /\
  (str_prefix 8 c = "ffffffff" ->
   exists st',
     generate_zk_proof text summary metadata st = (Raise RuntimeError, st')).
Proof.
  intros metadata c. subst metadata.
  unfold generate_zk_proof. rewrite generate_zk_proof_body_inference.
  fold c. cbv zeta.
  destruct (int_base16_digest
              (combined_items
                 (circuit_inputs_dict
                    (PStr (sha256_hex text)) (PStr (sha256_hex summary))
                    (PStr self_model_hash)
                    (PStr (str_of_int (Z.of_nat (String.length text))))
                    (PStr (str_of_int (Z.of_nat (String.length summary))))
                    (PStr (_generate_verification_key self_model_hash text
                             summary)))))
    as (n & Hn & Hr & Hff).
  fold (inference_commitment self_model_hash text summary) in Hn, Hff.
  fold c in Hn, Hff.
  assert (Pa : forall sfx s0, exists p s1,
             _generate_proof_point c sfx s0 = (Ok p, s1)).
  { intros sfx s0. rewrite (generate_proof_point_seed c sfx n s0 Hn Hr).
    destruct (draw_strs_ok 3 (seed_state n)) as (l & s1 & E & _).
    unfold mbind. rewrite E. unfold mret. eauto. }
  destruct (Pa "a" st) as (pa & s1 & Ea).
  rewrite (mbind_step _ _ _ _ _ Ea).
  split.
  - intros Hne.
    assert (Hb : (0 <= n + Z.of_nat (String.length "b") <= 2 ^ 32 - 1)%Z).
    { simpl. assert (n <> 2 ^ 32 - 1)%Z by (intros E; apply Hne, Hff, E).
      lia. }
    destruct (draw_rows_ok 3 2 (seed_state (n + Z.of_nat (String.length "b"))))
      as (rows & s2 & E & _).
    assert (Eb : _generate_proof_matrix c "b" s1 = (Ok (PList rows), s2)).
    { rewrite (generate_proof_matrix_seed c "b" n s1 Hn Hb).
      unfold mbind. rewrite E. reflexivity. }
    rewrite (mbind_step _ _ _ _ _ Eb).
    destruct (Pa "c" s2) as (pc & s3 & Ec).
    rewrite (mbind_step _ _ _ _ _ Ec). unfold mret. eauto.
  - intros Hff'. apply Hff in Hff'.
    rewrite (mbind_raise _ _ s1 ValueError s1).
    + eauto.
    + apply generate_proof_matrix_refused with (n := n); [exact Hn|].
      simpl. lia.
Qed.

(** C1 (binding soundness), where the code departs from it. For the text
    'Hello world.', the summary 'Hello 269040594.' and the model hash
    [sha256('')], the commitment of the metadata that [run_inference] builds
    starts with ffffffff: the seed of pi_b is 4294967295 + 1, which
    [np.random.seed] refuses, and [generate_zk_proof] raises [RuntimeError]
    from every state of the generator. No artifact is returned, so there is
    nothing that [verify_inference] could accept. *)
Theorem binding_soundness_seed_overflow
    (max_length min_length timestamp : Z) (st : rng_state) :
  str_prefix 8
    (inference_commitment hello_model_hash "Hello world." "Hello 269040594.")
  = "ffffffff" /\
  exists st',
    generate_zk_proof "Hello world." "Hello 269040594."
      (run_inference_metadata hello_model_hash "Hello world."
         "Hello 269040594." max_length min_length timestamp) st
    = (Raise RuntimeError, st').
Proof.
  assert (P : str_prefix 8
                (inference_commitment hello_model_hash "Hello world."
                   "Hello 269040594.") = "ffffffff")
    by (vm_compute; reflexivity).
  split; [exact P|].
  destruct (synthesis_outcome hello_model_hash "Hello world."
              "Hello 269040594." max_length min_length timestamp st)
    as [_ Hraise].
  exact (Hraise P).
Qed.

End Outcome.

(** ** The canonical form of the specification *)

Lemma map_fst_insert_item x l :
  map fst (insert_item x l) = insert_name (fst x) (map fst l).
Proof.
  induction l as [|y l IH]; simpl; [reflexivity|].
  destruct (String.leb (fst x) (fst y)); simpl; congruence.
Qed.

Lemma map_fst_sorted_items d :
  map fst (sorted_items d) = sort_names (map fst d).
Proof.
  unfold sorted_items, sort_names.
  induction d as [|x d IH]; simpl; [reflexivity|].
  now rewrite map_fst_insert_item, IH.
Qed.

Lemma dict_get_in_wf d k v :
  wf_dict d -> In (k, v) d -> dict_get d k = Some v.
Proof.
  unfold wf_dict. induction d as [|[k' v'] d IH]; simpl; intros W Hin;
    [contradiction|].
  inversion W as [|? ? Hn W']; subst.
  destruct Hin as [E|Hin].
  - inversion E; subst. now rewrite String.eqb_refl.
  - destruct (String.eqb_spec k' k) as [->|_]; [|now apply IH].
    exfalso. apply Hn. apply in_map_iff. exists (k, v). auto.
Qed.

(** The string the code hashes is the canonical form of the specification. *)
Lemma combined_items_canonical d :
  wf_dict d -> combined_items d = canonicalize d.
Proof.
  intros W. unfold combined_items, canonicalize. f_equal.
  rewrite <- map_fst_sorted_items, map_map.
  apply map_ext_in. intros [k v] Hin.
  unfold format_item, field_value. simpl.
  rewrite (dict_get_in_wf d k v W); [reflexivity|].
  eapply Permutation_in; [apply sorted_items_perm|exact Hin].
Qed.

(** ** numpy's generator *)

Lemma mt19937_bounded_range fuel : forall rng mask st,
  (0 <= rng)%Z -> (0 <= mask)%Z ->
  (0 <= fst (MT19937.bounded fuel rng mask st) <= rng)%Z.
Proof.
  induction fuel as [|fuel IH]; intros rng mask st Hr Hm;
    cbn [MT19937.bounded]; [simpl; lia|].
  destruct (MT19937.next st) as [y st1].
  destruct (Z.leb_spec (Z.land y mask) rng) as [Hle|Hgt]; cbn [fst].
  - split; [|exact Hle]. apply Z.land_nonneg. now right.
  - now apply IH.
Qed.

(** [randint low high] of the MT19937 instance lies in [low, high). *)
Lemma mt19937_randint_range low high st :
  (low < high)%Z ->
  (low <= fst (MT19937.randint low high st) < high)%Z.
Proof.
  intros H. unfold MT19937.randint.
  generalize MT19937.reject_limit. intros fuel.
  destruct (Z.eqb_spec (high - 1 - low) 0); cbn [fst]; [lia|].
  assert (M : (0 <= MT19937.gen_mask (high - 1 - low))%Z).
  { unfold MT19937.gen_mask.
    assert (0 < 2 ^ Z.log2_up (high - 1 - low + 1))%Z; [|lia].
    apply Z.pow_pos_nonneg; [lia|apply Z.log2_up_nonneg]. }
  pose proof (mt19937_bounded_range fuel (high - 1 - low)
                (MT19937.gen_mask (high - 1 - low)) st
                ltac:(lia) M) as B.
  destruct (MT19937.bounded fuel (high - 1 - low)
              (MT19937.gen_mask (high - 1 - low)) st) as [v st1].
  cbn [fst] in *. lia.
Qed.

(* ================================================================== *)
(** * The scenario of the specification, evaluated *)

Example sha256_empty :
  sha256_hex ""
  = "e3b0c44298fc1c149afbf4c8996fb92427ae41e4649b934ca495991b7852b855".
Proof. vm_compute. reflexivity. Qed.

Example sha256_abc :
  sha256_hex "abc"
  = "ba7816bf8f01cfea414140de5dae2223b00361a396177a9cb410ff61f20015ad".
Proof. vm_compute. reflexivity. Qed.

Example sha256_two_blocks :
  sha256_hex "abcdbcdecdefdefgefghfghighijhijkijkljklmklmnlmnomnopnopq"
  = "248d6a61d20638b8e5c026930c3e6039a33ce45964ff2167f6ecedd419db06c1".
Proof. vm_compute. reflexivity. Qed.

(** [np.random.seed(42)] followed by ten [np.random.randint(0, 1000)]. *)
Example mt19937_seed_42 :
  (fix draws (n : nat) (st : MT19937.state) : list Z :=
     match n with
     | O => []
     | S n' => let (v, st') := MT19937.randint 0 1000 st in v :: draws n' st'
     end) 10%nat (MT19937.seed 42)
  = [102; 435; 860; 270; 106; 71; 700; 20; 614; 121]%Z.
Proof. vm_compute. reflexivity. Qed.

Example repr_nested :
  py_str (PList [PStr "a'b"; PInt (-5); PDict [("k", PNone)]; PBool true])
  = String "[" (String dquote ("a'b" ++ String dquote
      ", -5, {'k': None}, True]")).
Proof. vm_compute. reflexivity. Qed.

Lemma hello_proof_generated :
  fst (generate_zk_proof (RB := numpy_mt19937) "Hello world." "Hello."
         hello_metadata (MT19937.seed 0))
  = Ok hello_proof.
Proof. vm_compute. reflexivity. Qed.

Lemma hello_run :
  generate_zk_proof (RB := numpy_mt19937) "Hello world." "Hello."
    hello_metadata (MT19937.seed 0)
  = (Ok hello_proof,
     snd (generate_zk_proof (RB := numpy_mt19937) "Hello world." "Hello."
            hello_metadata (MT19937.seed 0))).
Proof.
  rewrite <- hello_proof_generated. apply surjective_pairing.
Qed.

(** The exceptions the body of [verify_inference] meets on ill-formed
    artifacts. *)
Example verify_body_raises :
  verify_inference_body hello_model_hash "Hello world." "Hello." PNone
    = Raise TypeError /\
  verify_inference_body hello_model_hash "Hello world." "Hello." (PDict [])
    = Raise KeyError /\
  verify_inference_body hello_model_hash "Hello world." "Hello."
    (PDict [("public_signals", PList [])]) = Raise IndexError /\
  verify_inference_body hello_model_hash "Hello world." "Hello."
    (PDict [("public_signals", PList hello_signals);
            ("commitment", PStr hello_commitment);
            ("circuit_inputs", PInt 1)])
    = Raise AttributeError.
Proof. vm_compute. repeat split. Qed.

(** The scenario: the artifact synthesised for it is accepted. *)
Lemma binding_soundness_witness :
  fst (generate_zk_proof (RB := numpy_mt19937) "Hello world." "Hello."
         hello_metadata (MT19937.seed 0)) = Ok hello_proof /\
  verify_inference hello_model_hash "Hello world." "Hello." hello_proof
  = Ok true.
Proof.
  split; [exact hello_proof_generated|].
  exact (binding_soundness (RB := numpy_mt19937) hello_model_hash
           "Hello world." "Hello." 150 30 0 _ _ _ hello_run).
Defined.

(** An instance of C2: one character of the text is changed. *)
Lemma tamper_detection_witness :
  str_prefix 16 (sha256_hex "Hello World.")
    <> str_prefix 16 (sha256_hex "Hello world.") /\
  verify_inference hello_model_hash "Hello World." "Hello." hello_proof
  = Ok false.
Proof.
  assert (N : str_prefix 16 (sha256_hex "Hello World.")
              <> str_prefix 16 (sha256_hex "Hello world."))
    by (vm_compute; discriminate).
  split; [exact N|].
  exact (tamper_detection (RB := numpy_mt19937) hello_model_hash
           "Hello world." "Hello." 150 30 0 _ _ _
           hello_model_hash "Hello World." "Hello."
           hello_run (or_introl N)).
Defined.

(** The value returned on a tampered summary carries no reason: the claim of
    a [BindingMismatch] reason fails on the scenario of the specification. *)
Lemma tamper_reason_counterexample :
  reported (verify_inference hello_model_hash "Hello world." "Hi."
              hello_proof)
    = Some (mkResult false None) /\
  reported (verify_inference hello_model_hash "Hello world." "Hi."
              hello_proof)
    <> Some (mkResult false (Some BindingMismatch)).
Proof. split; vm_compute; [reflexivity|discriminate]. Qed.

(** An instance of C5. *)
Lemma artifact_invariants_witness :
  exists pi_a pi_b pi_c s0 s1 s2 s3 commitment circuit_inputs,
    hello_proof = proof_dict pi_a pi_b pi_c [s0; s1; s2; s3] commitment
                    circuit_inputs /\
    commitment = sha256_hex (canonicalize circuit_inputs) /\
    (v <- getitem (PDict circuit_inputs) "input_hash" ;; getslice v 16)%result
      = Ok s0 /\
    (v <- getitem (PDict circuit_inputs) "output_hash" ;; getslice v 16)%result
      = Ok s1 /\
    (v <- getitem (PDict circuit_inputs) "model_hash" ;; getslice v 16)%result
      = Ok s2 /\
    (v <- getitem (PDict circuit_inputs) "verification_key" ;;
     getslice v 16)%result = Ok s3 /\
    is_vector 3 pi_a = true /\
    is_matrix 3 2 pi_b = true /\
    is_vector 3 pi_c = true.
Proof.
  exact (artifact_invariants (RB := numpy_mt19937) "Hello world." "Hello."
           hello_metadata _ _ _ hello_run).
Defined.

(** The shapes of pi_a, pi_b and pi_c are not inspected: an artifact whose
    pi_a is empty, whose pi_b has one row of one entry and whose pi_c is an
    int is accepted. And where an artifact is refused for its three public
    signals, the value returned carries no reason. *)
Lemma structural_counterexample :
  is_vector 3 (PList []) = false /\
  getitem misshapen_proof "pi_a" = Ok (PList []) /\
  getitem misshapen_proof "pi_b" = Ok (PList [PList [PStr "1"]]) /\
  getitem misshapen_proof "pi_c" = Ok (PInt 7) /\
  verify_inference hello_model_hash "Hello world." "Hello." misshapen_proof
    = Ok true /\
  reported (verify_inference hello_model_hash "Hello world." "Hello."
              three_signal_proof)
    = Some (mkResult false None).
Proof. vm_compute. repeat split. Qed.

(** An instance of C6: three public signals. *)
Lemma structural_rejection_witness :
  getitem three_signal_proof "public_signals"
    = Ok (PList (firstn 3 hello_signals)) /\
  py_len (PList (firstn 3 hello_signals)) <> Ok 4%Z /\
  verify_inference hello_model_hash "Hello world." "Hello."
    three_signal_proof = Ok false.
Proof.
  assert (G : getitem three_signal_proof "public_signals"
              = Ok (PList (firstn 3 hello_signals))) by reflexivity.
  assert (L : py_len (PList (firstn 3 hello_signals)) <> Ok 4%Z)
    by (simpl; discriminate).
  split; [exact G|]. split; [exact L|].
  apply structural_rejection. right.
  exists (PList (firstn 3 hello_signals)). split; [exact G|exact L].
Defined.

(** An internal error is answered by [False] and nothing else: the claim of
    an [InternalError] reason fails on an artifact that is not a dict. *)
Lemma internal_error_counterexample :
  verify_inference_body hello_model_hash "Hello world." "Hello." PNone
    = Raise TypeError /\
  reported (verify_inference hello_model_hash "Hello world." "Hello." PNone)
    = Some (mkResult false None) /\
  reported (verify_inference hello_model_hash "Hello world." "Hello." PNone)
    <> Some (mkResult false (Some InternalError)).
Proof. repeat split; vm_compute; try reflexivity; discriminate. Qed.

(** An instance of C9: metadata without [output_hash]. *)
Lemma synthesis_missing_field_witness :
  In "output_hash" required_fields /\
  dict_get [("input_hash", PStr "aa3ec16e6acc809d")] "output_hash" = None /\
  generate_zk_proof (RB := numpy_mt19937) "Hello world." "Hello."
    (PDict [("input_hash", PStr "aa3ec16e6acc809d")]) (MT19937.seed 0)
  = (Raise RuntimeError, MT19937.seed 0).
Proof.
  assert (I : In "output_hash" required_fields) by (simpl; auto).
  split; [exact I|]. split; [reflexivity|].
  exact (synthesis_missing_field (RB := numpy_mt19937) "Hello world." "Hello."
           [("input_hash", PStr "aa3ec16e6acc809d")] "output_hash"
           (MT19937.seed 0) I eq_refl).
Defined.

(** An instance of C10: the artifact of the scenario and the one with other
    proof components. *)
Lemma verification_ignores_points_witness :
  verify_inference hello_model_hash "Hello world." "Hello." hello_proof
  = verify_inference hello_model_hash "Hello world." "Hello." misshapen_proof.
Proof.
  unfold hello_proof, misshapen_proof, proof_dict.
  apply verification_ignores_points; try reflexivity.
  intros k Ha Hb Hc. cbn [dict_get].
  destruct (String.eqb_spec "pi_a" k); [congruence|].
  destruct (String.eqb_spec "pi_b" k); [congruence|].
  destruct (String.eqb_spec "pi_c" k); [congruence|].
  reflexivity.
Defined.

(* ================================================================== *)
(** * Further properties of the code *)

(** ** What [verify_inference] accepts *)

(** X2. The circuit inputs of an artifact are not tied to the verified text:
    for any text, summary and model hash, an artifact whose first three
    signals are their truncations is accepted with any circuit inputs of
    plain values (distinct keys; values [None], bools, strs or ints of at
    most 4300 digits), provided its commitment is the one of those circuit
    inputs; the fourth signal and the proof components are free. *)
Theorem verify_inference_accepts_any_circuit_inputs
    (self_model_hash text summary : string)
    (pi_a pi_b pi_c fourth : pyval) (circuit_inputs : pydict) :
  plain_dict circuit_inputs ->
  verify_inference self_model_hash text summary
    (proof_dict pi_a pi_b pi_c
       [PStr (str_prefix 16 (sha256_hex text));
        PStr (str_prefix 16 (sha256_hex summary));
        PStr (str_prefix 16 self_model_hash);
        fourth]
       (sha256_hex (combined_items circuit_inputs)) circuit_inputs)
  = Ok true.
Proof.
  intros _. rewrite verify_proof_dict. cbn [py_eq_str].
  now rewrite !String.eqb_refl.
Qed.

(** An instance of X2: the circuit inputs of the scenario, in an artifact
    that is accepted for another text and another summary. *)
Lemma verify_inference_accepts_any_circuit_inputs_witness :
  plain_dict hello_circuit_inputs /\
  verify_inference hello_model_hash "Another text." "Another."
    (proof_dict PNone PNone PNone
       [PStr (str_prefix 16 (sha256_hex "Another text."));
        PStr (str_prefix 16 (sha256_hex "Another."));
        PStr (str_prefix 16 hello_model_hash);
        PNone]
       (sha256_hex (combined_items hello_circuit_inputs))
       hello_circuit_inputs)
  = Ok true.
Proof.
  assert (P : plain_dict hello_circuit_inputs).
  { split; [|vm_compute; reflexivity].
    unfold wf_dict. simpl.
    repeat (constructor; [simpl; intuition discriminate|]). constructor. }
  split; [exact P|].
  exact (verify_inference_accepts_any_circuit_inputs hello_model_hash
           "Another text." "Another." PNone PNone PNone PNone
           hello_circuit_inputs P).
Defined.

(** X3. [verify_inference] reads of an artifact only [public_signals],
    [commitment], [circuit_inputs] and whether [pi_a], [pi_b], [pi_c] are
    keys: two dicts alike in these get the same answer, whatever they hold
    under [protocol], [curve] or any other key, or if they lack them. *)
Theorem verify_inference_reads_only (self_model_hash text summary : string)
    (d1 d2 : pydict) :
  dict_get d1 "public_signals" = dict_get d2 "public_signals" ->
  dict_get d1 "commitment" = dict_get d2 "commitment" ->
  dict_get d1 "circuit_inputs" = dict_get d2 "circuit_inputs" ->
  dict_has d1 "pi_a" = dict_has d2 "pi_a" ->
  dict_has d1 "pi_b" = dict_has d2 "pi_b" ->
  dict_has d1 "pi_c" = dict_has d2 "pi_c" ->
  verify_inference self_model_hash text summary (PDict d1)
  = verify_inference self_model_hash text summary (PDict d2).
Proof.
  intros Hs Hc Hi Ha Hb Hpc.
  unfold verify_inference, verify_inference_body, signal_eq, getitem,
    py_contains.
  now rewrite Hs, Hc, Hi, Ha, Hb, Hpc.
Qed.

(** An instance of X3: the artifact of the scenario without [protocol] and
    [curve]. *)
Lemma verify_inference_reads_only_witness :
  verify_inference hello_model_hash "Hello world." "Hello." hello_proof
  = verify_inference hello_model_hash "Hello world." "Hello."
      (PDict [("pi_c", PNone); ("pi_b", PNone); ("pi_a", PNone);
              ("circuit_inputs", PDict hello_circuit_inputs);
              ("commitment", PStr hello_commitment);
              ("public_signals", PList hello_signals)]).
Proof.
  unfold hello_proof, proof_dict.
  apply verify_inference_reads_only; reflexivity.
Defined.

(** X4. [verify_inference] sees the text, the summary and the model hash
    only through 16 characters each: inputs with the same truncated digests
    and the same truncated model hash get the same answer on every
    artifact. *)
Theorem verify_inference_truncations (self_model_hash text summary : string)
    (self_model_hash' text' summary' : string) (proof : pyval) :
  str_prefix 16 (sha256_hex text') = str_prefix 16 (sha256_hex text) ->
  str_prefix 16 (sha256_hex summary') = str_prefix 16 (sha256_hex summary) ->
  str_prefix 16 self_model_hash' = str_prefix 16 self_model_hash ->
  verify_inference self_model_hash' text' summary' proof
  = verify_inference self_model_hash text summary proof.
Proof.
  intros Ht Hs Hm. unfold verify_inference, verify_inference_body.
  now rewrite Ht, Hs, Hm.
Qed.

(** An instance of X4: two model hashes that differ after the sixteenth
    character. *)
Lemma verify_inference_truncations_witness :
  verify_inference "e3b0c44298fc1c14ffff" "Hello world." "Hello." hello_proof
  = verify_inference hello_model_hash "Hello world." "Hello." hello_proof.
Proof.
  apply verify_inference_truncations; reflexivity.
Defined.

(** ** Commitments *)

Lemma string_app_assoc s1 s2 s3 : (s1 ++ s2) ++ s3 = s1 ++ (s2 ++ s3).
Proof. induction s1 as [|c s1 IH]; simpl; congruence. Qed.

Lemma string_app_empty_r s : s ++ "" = s.
Proof. induction s as [|c s IH]; simpl; congruence. Qed.

Lemma insert_item_map (f : string * pyval -> string * pyval) x l :
  (forall y, fst (f y) = fst y) ->
  insert_item (f x) (map f l) = map f (insert_item x l).
Proof.
  intros Hf. induction l as [|y l IH]; simpl; [reflexivity|].
  rewrite !Hf. destruct (String.leb (fst x) (fst y)); simpl; congruence.
Qed.

Lemma sorted_items_map (f : string * pyval -> string * pyval) d :
  (forall y, fst (f y) = fst y) ->
  sorted_items (map f d) = map f (sorted_items d).
Proof.
  intros Hf. unfold sorted_items.
  induction d as [|x d IH]; simpl; [reflexivity|].
  now rewrite IH, insert_item_map.
Qed.

(** X6. The commitment sees a value only through [str]: for a dict of plain
    values (distinct keys; values [None], bools, strs or ints of at most
    4300 digits), the dict and the dict of its stringified values (12 and
    '12', None and 'None') both have a commitment, and it is the same. *)
Theorem commitment_of_stringified (inputs : pydict) :
  plain_dict inputs ->
  exists commitment,
    _generate_commitment (PDict inputs) = Ok commitment /\
    _generate_commitment (PDict (stringified inputs)) = Ok commitment.
Proof.
  intros _. exists (sha256_hex (combined_items inputs)).
  split; [reflexivity|].
  unfold _generate_commitment, combined_items, stringified. simpl.
  rewrite sorted_items_map by reflexivity.
  rewrite map_map. reflexivity.
Qed.

(** An instance of X6: an int, [None] and a bool next to their strs. *)
Lemma commitment_of_stringified_witness :
  stringified [("n", PInt 12); ("x", PNone); ("b", PBool true)]
  = [("n", PStr "12"); ("x", PStr "None"); ("b", PStr "True")] /\
  exists commitment,
    _generate_commitment
      (PDict [("n", PInt 12); ("x", PNone); ("b", PBool true)])
    = Ok commitment /\
    _generate_commitment
      (PDict (stringified [("n", PInt 12); ("x", PNone); ("b", PBool true)]))
    = Ok commitment.
Proof.
  split; [vm_compute; reflexivity|].
  apply (commitment_of_stringified
           [("n", PInt 12); ("x", PNone); ("b", PBool true)]).
  split; [|vm_compute; reflexivity].
  unfold wf_dict. simpl.
  repeat (constructor; [simpl; intuition discriminate|]). constructor.
Defined.

(** X7. The canonical form has no separator between pairs, so it does not
    tell where one pair ends: a dict of two entries and the dict of one
    entry whose value runs over the second pair have the same commitment. *)
Theorem commitment_pair_boundary (k1 k2 v1 v2 : string) :
  k1 <> k2 ->
  String.leb k1 k2 = true ->
  _generate_commitment (PDict [(k1, PStr v1); (k2, PStr v2)])
  = _generate_commitment (PDict [(k1, PStr (v1 ++ k2 ++ ":" ++ v2))]).
Proof.
  intros _ Hle. unfold _generate_commitment, combined_items. simpl.
  rewrite Hle. unfold format_item, str_concat. simpl.
  do 2 f_equal. rewrite !string_app_empty_r.
  now rewrite !string_app_assoc.
Qed.

(** An instance of X7. *)
Lemma commitment_pair_boundary_witness :
  _generate_commitment (PDict [("a", PStr "1"); ("b", PStr "2")])
  = _generate_commitment (PDict [("a", PStr "1b:2")]).
Proof.
  apply (commitment_pair_boundary "a" "b" "1" "2");
    [discriminate|reflexivity].
Defined.

(** ** The format of a digest *)

Lemma is_lower_hex_digit d :
  (0 <= d < 16)%Z -> is_lower_hex (hex_digit d) = true.
Proof.
  intros H.
  assert (E : (d = 0 \/ d = 1 \/ d = 2 \/ d = 3 \/ d = 4 \/ d = 5 \/ d = 6 \/
               d = 7 \/ d = 8 \/ d = 9 \/ d = 10 \/ d = 11 \/ d = 12 \/
               d = 13 \/ d = 14 \/ d = 15)%Z) by lia.
  repeat (destruct E as [->|E]; [reflexivity|]). now subst.
Qed.

Lemma string_forallb_app f s1 s2 :
  string_forallb f (s1 ++ s2) = string_forallb f s1 && string_forallb f s2.
Proof.
  induction s1 as [|c s1 IH]; simpl; [reflexivity|].
  now rewrite IH, andb_assoc.
Qed.

Lemma hex_digits_lower n : forall x,
  string_forallb is_lower_hex (SHA256.hex_digits n x) = true.
Proof.
  induction n as [|n IH]; intros x; cbn [SHA256.hex_digits];
    [reflexivity|].
  rewrite string_forallb_app, IH. cbn [str1 string_forallb].
  rewrite is_lower_hex_digit by (apply Z.mod_pos_bound; lia).
  reflexivity.
Qed.

Lemma hexdigest_of_format s : is_hexdigest (SHA256.hexdigest_of s) = true.
Proof.
  unfold is_hexdigest, SHA256.hexdigest_of, SHA256.hex8.
  rewrite !string_length_append, !hex_digits_length.
  rewrite !string_forallb_app, !hex_digits_lower. reflexivity.
Qed.

(** X8. Every commitment that [_generate_commitment] returns is a string of
    64 lowercase hexadecimal characters. *)
Theorem commitment_format (inputs : pyval) (commitment : string) :
  _generate_commitment inputs = Ok commitment ->
  is_hexdigest commitment = true.
Proof.
  unfold _generate_commitment. intros H.
  apply rbind_ok in H. destruct H as (items & _ & H).
  inversion H. apply hexdigest_of_format.
Qed.

(** An instance of X8. *)
Lemma commitment_format_witness :
  _generate_commitment (PDict hello_circuit_inputs) = Ok hello_commitment /\
  is_hexdigest hello_commitment = true.
Proof.
  assert (G : _generate_commitment (PDict hello_circuit_inputs)
              = Ok hello_commitment) by (vm_compute; reflexivity).
  split; [exact G|].
  exact (commitment_format (PDict hello_circuit_inputs) hello_commitment G).
Defined.

(** ** Artifacts that [generate_zk_proof] returns *)

Section Generated.

Context {RB : RandomBackend}.

Lemma generate_zk_proof_body_agree text summary metadata st1 st2 :
  agree (generate_zk_proof_body text summary metadata st1)
        (generate_zk_proof_body text summary metadata st2).
Proof.
  unfold generate_zk_proof_body.
  do 7 (apply agree_lift_mbind; intros ?).
  apply agree_mbind. apply generate_proof_point_agree.
Qed.

(** X9. In every artifact that [generate_zk_proof] returns, [pi_a] and
    [pi_c] are the same value (both are drawn right after seeding with the
    same seed; the suffix is not used). *)
Theorem generated_pi_a_is_pi_c (text summary : string) (metadata : pyval)
    (st st' : rng_state) (proof : pyval) :
  generate_zk_proof text summary metadata st = (Ok proof, st') ->
  exists point,
    getitem proof "pi_a" = Ok point /\ getitem proof "pi_c" = Ok point.
Proof.
  intros H. apply generate_zk_proof_ok in H.
  destruct H as (ih & oh & mh & il & ol & vk & pa & pb & pc & s0 & s1 & s2
                 & s3 & st1 & st2 & _ & _ & _ & _ & _ & _ & H).
  cbn zeta in H. destruct H as (Ha & _ & Hc & _ & _ & _ & _ & ->).
  exists pa. split; [reflexivity|].
  change (_generate_proof_point
            (sha256_hex
               (combined_items
                  (circuit_inputs_dict ih oh mh (PStr (py_str il))
                     (PStr (py_str ol)) vk))) "c" st2)
    with (_generate_proof_point
            (sha256_hex
               (combined_items
                  (circuit_inputs_dict ih oh mh (PStr (py_str il))
                     (PStr (py_str ol)) vk))) "a" st2) in Hc.
  destruct (generate_proof_point_agree
              (sha256_hex
                 (combined_items
                    (circuit_inputs_dict ih oh mh (PStr (py_str il))
                       (PStr (py_str ol)) vk))) "a" st st2)
    as [E|(e & E & _)].
  - rewrite Ha, Hc in E. inversion E. reflexivity.
  - rewrite Ha in E. discriminate.
Qed.

(** X10. After a successful [generate_zk_proof] the module-level generator is
    in a state that the metadata alone decide: whatever its state before,
    the artifact and the state left behind are the same. A caller's own
    random stream is replaced. *)
Theorem generate_zk_proof_resets_generator (text summary : string)
    (metadata : pyval) (st1 st2 st1' st2' : rng_state) (proof1 proof2 : pyval) :
  generate_zk_proof text summary metadata st1 = (Ok proof1, st1') ->
  generate_zk_proof text summary metadata st2 = (Ok proof2, st2') ->
  proof1 = proof2 /\ st1' = st2'.
Proof.
  unfold generate_zk_proof. intros H1 H2.
  destruct (generate_zk_proof_body_agree text summary metadata st1 st2)
    as [E|(e & E & _)].
  - rewrite E in H1.
    destruct (generate_zk_proof_body text summary metadata st2)
      as [[p|e] s]; [|discriminate].
    inversion H1; inversion H2; subst. auto.
  - destruct (generate_zk_proof_body text summary metadata st1)
      as [[p|e1] s]; simpl in E; discriminate.
Qed.

(** X11. A metadata dict whose [input_hash], [output_hash], [model_hash] or
    [verification_key] is [None], a bool, an int or a dict makes
    [generate_zk_proof] raise [RuntimeError]: the value is formatted into
    the commitment, and refused only when the public signals take its first
    16 characters. *)
Theorem generate_zk_proof_unsliceable_field (text summary : string)
    (metadata : pydict) (field : string) (v : pyval) (st : rng_state) :
  In field ["input_hash"; "output_hash"; "model_hash"; "verification_key"] ->
  dict_get metadata field = Some v ->
  is_unsliceable v = true ->
  exists st',
    generate_zk_proof text summary (PDict metadata) st
    = (Raise RuntimeError, st').
Proof.
  intros Hin Hget Hv.
  destruct (generate_zk_proof text summary (PDict metadata) st)
    as [[proof|e] st'] eqn:G.
  - exfalso. apply generate_zk_proof_ok in G.
    destruct G as (ih & oh & mh & il & ol & vk & pa & pb & pc & s0 & s1 & s2
                   & s3 & st1 & st2 & Hih & Hoh & Hmh & _ & _ & Hvk & H).
    cbn zeta in H. destruct H as (_ & _ & _ & G0 & G1 & G2 & G3 & _).
    assert (Get : forall k x, getitem (PDict metadata) k = Ok x ->
                              dict_get metadata k = Some x).
    { intros k x. simpl. destruct (dict_get metadata k); intros E;
        inversion E. reflexivity. }
    assert (Sl : forall x r, getslice x 16 = Ok r -> is_unsliceable x = false).
    { intros x r E. destruct x; simpl in *; try discriminate; reflexivity. }
    apply Get in Hih, Hoh, Hmh, Hvk.
    apply Sl in G0, G1, G2, G3.
    simpl in Hin.
    destruct Hin as [<-|[<-|[<-|[<-|[]]]]]; congruence.
  - exists st'. f_equal.
    unfold generate_zk_proof in G.
    destruct (generate_zk_proof_body text summary (PDict metadata) st)
      as [[p|e'] s']; inversion G; reflexivity.
Qed.

(** X12. On an artifact that [generate_zk_proof] returned, for any metadata,
    the commitment test and the structure test of [verify_inference] always
    pass: verification comes down to the comparison of its first three
    signals with the truncated digests and the truncated model hash. *)
Theorem verify_generated (text0 summary0 : string) (metadata : pyval)
    (st st' : rng_state) (proof : pyval) :
  generate_zk_proof text0 summary0 metadata st = (Ok proof, st') ->
  exists s0 s1 s2 s3,
    getitem proof "public_signals" = Ok (PList [s0; s1; s2; s3]) /\
    forall self_model_hash text summary,
      verify_inference self_model_hash text summary proof
      = Ok (py_eq_str s0 (str_prefix 16 (sha256_hex text))
            && py_eq_str s1 (str_prefix 16 (sha256_hex summary))
            && py_eq_str s2 (str_prefix 16 self_model_hash)).
Proof.
  intros H. apply generate_zk_proof_ok in H.
  destruct H as (ih & oh & mh & il & ol & vk & pa & pb & pc & s0 & s1 & s2
                 & s3 & st1 & st2 & _ & _ & _ & _ & _ & _ & H).
  cbn zeta in H. destruct H as (_ & _ & _ & _ & _ & _ & _ & ->).
  exists s0, s1, s2, s3. split; [reflexivity|].
  intros m t s. rewrite verify_proof_dict, String.eqb_refl.
  now rewrite andb_true_r.
Qed.

(** X13. On the metadata of an inference, [generate_zk_proof] returns an
    artifact unless the commitment starts with ffffffff, and raises
    [RuntimeError] if it does. *)
Theorem inference_synthesis_cases
    (self_model_hash text summary : string)
    (max_length min_length timestamp : Z) (st : rng_state) :
  (str_prefix 8 (inference_commitment self_model_hash text summary)
     <> "ffffffff" /\
   exists proof st',
     generate_zk_proof text summary
       (run_inference_metadata self_model_hash text summary
          max_length min_length timestamp) st = (Ok proof, st')) \/
  (str_prefix 8 (inference_commitment self_model_hash text summary)
     = "ffffffff" /\
   exists st',
     generate_zk_proof text summary
       (run_inference_metadata self_model_hash text summary
          max_length min_length timestamp) st = (Raise RuntimeError, st')).
Proof.
  destruct (synthesis_outcome self_model_hash text summary
              max_length min_length timestamp st) as [Hok Hraise].
  destruct (string_dec
              (str_prefix 8 (inference_commitment self_model_hash text summary))
              "ffffffff") as [E|N].
  - right. split; [exact E|]. now apply Hraise.
  - left. split; [exact N|]. now apply Hok.
Qed.

End Generated.

(** An instance of X9. *)
Lemma generated_pi_a_is_pi_c_witness :
  exists point,
    getitem hello_proof "pi_a" = Ok point /\
    getitem hello_proof "pi_c" = Ok point.
Proof.
  exact (generated_pi_a_is_pi_c (RB := numpy_mt19937) "Hello world." "Hello."
           hello_metadata _ _ _ hello_run).
Defined.

Lemma hello_run_seed_1 :
  generate_zk_proof (RB := numpy_mt19937) "Hello world." "Hello."
    hello_metadata (MT19937.seed 1)
  = (Ok hello_proof,
     snd (generate_zk_proof (RB := numpy_mt19937) "Hello world." "Hello."
            hello_metadata (MT19937.seed 1))).
Proof.
  assert (E : fst (generate_zk_proof (RB := numpy_mt19937) "Hello world."
                     "Hello." hello_metadata (MT19937.seed 1))
              = Ok hello_proof) by (vm_compute; reflexivity).
  rewrite <- E. apply surjective_pairing.
Qed.

(** An instance of X10: the generator seeded with 0 and with 1 beforehand. *)
Lemma generate_zk_proof_resets_generator_witness :
  hello_proof = hello_proof /\
  snd (generate_zk_proof (RB := numpy_mt19937) "Hello world." "Hello."
         hello_metadata (MT19937.seed 0))
  = snd (generate_zk_proof (RB := numpy_mt19937) "Hello world." "Hello."
           hello_metadata (MT19937.seed 1)).
Proof.
  exact (generate_zk_proof_resets_generator (RB := numpy_mt19937)
           "Hello world." "Hello." hello_metadata _ _ _ _ _ _
           hello_run hello_run_seed_1).
Defined.

(** An instance of X11: the metadata of the scenario with an int for its
    [input_hash]. *)
Lemma generate_zk_proof_unsliceable_field_witness :
  exists st',
    generate_zk_proof (RB := numpy_mt19937) "Hello world." "Hello."
      (PDict [("input_hash", PInt 5);
              ("output_hash", PStr (sha256_hex "Hello."));
              ("model_hash", PStr hello_model_hash);
              ("input_length", PInt 12);
              ("output_length", PInt 6);
              ("verification_key", PStr "6e2b90e39367bf30")])
      (MT19937.seed 0)
    = (Raise RuntimeError, st').
Proof.
  apply (generate_zk_proof_unsliceable_field (RB := numpy_mt19937)
           "Hello world." "Hello." _ "input_hash" (PInt 5));
    [simpl; auto | reflexivity | reflexivity].
Defined.

(** An instance of X12. *)
Lemma verify_generated_witness :
  exists s0 s1 s2 s3,
    getitem hello_proof "public_signals" = Ok (PList [s0; s1; s2; s3]) /\
    forall self_model_hash text summary,
      verify_inference self_model_hash text summary hello_proof
      = Ok (py_eq_str s0 (str_prefix 16 (sha256_hex text))
            && py_eq_str s1 (str_prefix 16 (sha256_hex summary))
            && py_eq_str s2 (str_prefix 16 self_model_hash)).
Proof.
  exact (verify_generated (RB := numpy_mt19937) "Hello world." "Hello."
           hello_metadata _ _ _ hello_run).
Defined.

(** ** The entries of the proof components under numpy's generator *)

Section DrawRange.

Context {RB : RandomBackend}.
Hypothesis randint_range :
  forall st, (1 <= fst (randint 1 1000 st) < 1000)%Z.

Lemma draw_strs_range n : forall st l st',
  draw_strs n st = (Ok l, st') -> Forall is_draw l.
Proof.
  induction n as [|n IH]; intros st l st' H; cbn [draw_strs] in H.
  - inversion H. constructor.
  - inv_mbind H. inv_mbind H. unfold mret in H. inversion H; subst.
    constructor; [|eapply IH; eassumption].
    unfold np_random_randint in H0.
    pose proof (randint_range st) as R.
    destruct (randint 1 1000 st) as [v s]. inversion H0; subst.
    exists a. split; [reflexivity|exact R].
Qed.

Lemma draw_rows_range n m : forall st rows st',
  draw_rows n m st = (Ok rows, st') -> Forall all_draws rows.
Proof.
  induction n as [|n IH]; intros st rows st' H; cbn [draw_rows] in H.
  - inversion H. constructor.
  - inv_mbind H. inv_mbind H. unfold mret in H. inversion H; subst.
    constructor; [|eapply IH; eassumption].
    exists a. split; [reflexivity|].
    eapply draw_strs_range; eassumption.
Qed.

Lemma proof_point_range commitment suffix st p st' :
  _generate_proof_point commitment suffix st = (Ok p, st') -> all_draws p.
Proof.
  unfold _generate_proof_point. intros H.
  inv_mbind H. inv_mbind H. inv_mbind H.
  unfold mret in H. inversion H; subst.
  exists a1. split; [reflexivity|].
  eapply draw_strs_range; eassumption.
Qed.

Lemma proof_matrix_range commitment suffix st p st' :
  _generate_proof_matrix commitment suffix st = (Ok p, st') ->
  all_rows_draws p.
Proof.
  unfold _generate_proof_matrix. intros H.
  inv_mbind H. inv_mbind H. inv_mbind H.
  unfold mret in H. inversion H; subst.
  exists a1. split; [reflexivity|].
  eapply draw_rows_range; eassumption.
Qed.

Lemma generated_range text summary metadata st st' proof :
  generate_zk_proof text summary metadata st = (Ok proof, st') ->
  exists pi_a pi_b pi_c,
    getitem proof "pi_a" = Ok pi_a /\ all_draws pi_a /\
    getitem proof "pi_b" = Ok pi_b /\ all_rows_draws pi_b /\
    getitem proof "pi_c" = Ok pi_c /\ all_draws pi_c.
Proof.
  intros H. apply generate_zk_proof_ok in H.
  destruct H as (ih & oh & mh & il & ol & vk & pa & pb & pc & s0 & s1 & s2
                 & s3 & st1 & st2 & _ & _ & _ & _ & _ & _ & H).
  cbn zeta in H. destruct H as (Ha & Hb & Hc & _ & _ & _ & _ & ->).
  exists pa, pb, pc.
  repeat split; try reflexivity.
  - eapply proof_point_range; eassumption.
  - eapply proof_matrix_range; eassumption.
  - eapply proof_point_range; eassumption.
Qed.

End DrawRange.

Lemma numpy_randint_range (st : MT19937.state) :
  (1 <= fst (randint (RandomBackend := numpy_mt19937) 1 1000 st) < 1000)%Z.
Proof. apply (mt19937_randint_range 1 1000 st). lia. Qed.

(** X14. Under numpy's generator every entry of [pi_a], [pi_b] and [pi_c]
    of a returned artifact is the decimal string of an integer from 1 to
    999. *)
Theorem generated_entries_in_range (text summary : string)
    (metadata : pyval) (st st' : MT19937.state) (proof : pyval) :
  generate_zk_proof (RB := numpy_mt19937) text summary metadata st
    = (Ok proof, st') ->
  exists pi_a pi_b pi_c,
    getitem proof "pi_a" = Ok pi_a /\ all_draws pi_a /\
    getitem proof "pi_b" = Ok pi_b /\ all_rows_draws pi_b /\
    getitem proof "pi_c" = Ok pi_c /\ all_draws pi_c.
Proof.
  apply (generated_range (RB := numpy_mt19937) numpy_randint_range).
Qed.

(** An instance of X14. *)
Lemma generated_entries_in_range_witness :
  exists pi_a pi_b pi_c,
    getitem hello_proof "pi_a" = Ok pi_a /\ all_draws pi_a /\
    getitem hello_proof "pi_b" = Ok pi_b /\ all_rows_draws pi_b /\
    getitem hello_proof "pi_c" = Ok pi_c /\ all_draws pi_c.
Proof.
  exact (generated_entries_in_range "Hello world." "Hello."
           hello_metadata _ _ _ hello_run).
Defined.

(** ** The verification key *)

Lemma substring_0_all n : forall s,
  (String.length s <= n)%nat -> substring 0 n s = s.
Proof.
  induction n as [|n IH]; intros [|c s] H; simpl in *;
    try reflexivity; try lia.
  f_equal. apply IH. lia.
Qed.

Lemma substring_0_append n : forall s1 s2,
  (n <= String.length s1)%nat ->
  substring 0 n (s1 ++ s2) = substring 0 n s1.
Proof.
  induction n as [|n IH]; intros [|c s1] s2 H; simpl in *;
    try reflexivity; try lia.
  - now destruct s2.
  - f_equal. apply IH. lia.
Qed.

(** X15. The verification key covers the first 100 characters of the text
    only: texts that share a prefix of at least 100 characters have the same
    key, for the same summary and model hash. *)
Theorem verification_key_ignores_tail
    (self_model_hash summary head tail1 tail2 : string) :
  (100 <= String.length head)%nat ->
  _generate_verification_key self_model_hash (head ++ tail1) summary
  = _generate_verification_key self_model_hash (head ++ tail2) summary.
Proof.
  intros H. unfold _generate_verification_key, str_prefix.
  now rewrite !substring_0_append by exact H.
Qed.

(** X16. The verification key hashes text, summary and model hash
    concatenated without separators: for texts of at most 100 characters,
    moving characters between the end of the text and the start of the
    summary leaves the key unchanged. *)
Theorem verification_key_boundary
    (self_model_hash text1 summary1 text2 summary2 : string) :
  (String.length text1 <= 100)%nat ->
  (String.length text2 <= 100)%nat ->
  text1 ++ summary1 = text2 ++ summary2 ->
  _generate_verification_key self_model_hash text1 summary1
  = _generate_verification_key self_model_hash text2 summary2.
Proof.
  intros H1 H2 E. unfold _generate_verification_key, str_prefix.
  rewrite !substring_0_all by assumption.
  now rewrite <- !string_app_assoc, E.
Qed.

(** An instance of X16. *)
Lemma verification_key_boundary_witness :
  _generate_verification_key hello_model_hash "Hello world." "Hello."
  = _generate_verification_key hello_model_hash "Hello " "world.Hello.".
Proof.
  apply verification_key_boundary; [simpl; lia|simpl; lia|reflexivity].
Defined.

(** An instance of X15: a head of 100 characters. *)
Lemma verification_key_ignores_tail_witness :
  _generate_verification_key hello_model_hash
    ("0123456789012345678901234567890123456789012345678901234567890123456789012345678901234567890123456789"
       ++ "A") "Hello."
  = _generate_verification_key hello_model_hash
      ("0123456789012345678901234567890123456789012345678901234567890123456789012345678901234567890123456789"
         ++ "B") "Hello.".
Proof.
  apply verification_key_ignores_tail.
  apply Nat.leb_le. reflexivity.
Defined.

(** ** The text handed to the tokenizer *)

Lemma lstrip_starts s : starts_nonspace (lstrip s) = true.
Proof.
  induction s as [|c s IH]; simpl; [reflexivity|].
  destruct (py_isspace c) eqn:E; [exact IH|]. simpl. now rewrite E.
Qed.

Lemma rstrip_ends s : ends_nonspace (rstrip s) = true.
Proof.
  induction s as [|c s IH]; cbn [rstrip]; [reflexivity|].
  destruct (rstrip s) as [|c' r].
  - destruct (py_isspace c) eqn:E; simpl; [reflexivity|now rewrite E].
  - exact IH.
Qed.

Lemma rstrip_starts s :
  starts_nonspace s = true -> starts_nonspace (rstrip s) = true.
Proof.
  destruct s as [|c s]; cbn [rstrip starts_nonspace]; [reflexivity|].
  intros H. destruct (rstrip s).
  - destruct (py_isspace c) eqn:E; [discriminate|].
    simpl. now rewrite E.
  - exact H.
Qed.

Lemma lstrip_id s : starts_nonspace s = true -> lstrip s = s.
Proof.
  destruct s as [|c s]; simpl; [reflexivity|].
  now destruct (py_isspace c).
Qed.

Lemma rstrip_id s : ends_nonspace s = true -> rstrip s = s.
Proof.
  induction s as [|c s IH]; [reflexivity|].
  cbn [rstrip ends_nonspace]. destruct s as [|c' s'].
  - cbn [rstrip]. now destruct (py_isspace c).
  - intros H. rewrite (IH H). reflexivity.
Qed.

Lemma strip_starts s : starts_nonspace (strip s) = true.
Proof. apply rstrip_starts, lstrip_starts. Qed.

Lemma strip_ends s : ends_nonspace (strip s) = true.
Proof. apply rstrip_ends. Qed.

Lemma strip_id s :
  starts_nonspace s = true -> ends_nonspace s = true -> strip s = s.
Proof.
  intros H1 H2. unfold strip. now rewrite (lstrip_id s H1), (rstrip_id s H2).
Qed.

Lemma substring_0_length n : forall s,
  (n <= String.length s)%nat -> String.length (substring 0 n s) = n.
Proof.
  induction n as [|n IH]; intros [|c s] H; simpl in *;
    try reflexivity; try lia.
  f_equal. apply IH. lia.
Qed.

Lemma ends_nonspace_dots s : ends_nonspace (s ++ "...") = true.
Proof.
  induction s as [|c s IH]; [reflexivity|].
  change (String c s ++ "...") with (String c (s ++ "...")).
  cbn [ends_nonspace]. destruct (s ++ "...") eqn:E; [|exact IH].
  destruct s; discriminate.
Qed.

Lemma starts_nonspace_prefix n s t :
  (1 <= n)%nat -> starts_nonspace s = true ->
  starts_nonspace (substring 0 n s ++ t) = starts_nonspace (s ++ t).
Proof.
  intros Hn _. destruct n as [|n]; [lia|].
  destruct s as [|c s]; reflexivity.
Qed.

(** The truncated form [text[:n] + "..."] of a stripped text longer than
    [n] is unchanged by a second pass. *)
Lemma truncated_fixed n s :
  (1 <= n)%nat -> (n < String.length s)%nat ->
  starts_nonspace s = true ->
  let r := substring 0 n s ++ "..." in
  strip r = r /\ String.length r = (n + 3)%nat /\
  substring 0 n r ++ "..." = r.
Proof.
  intros Hn Hlen Hs r. subst r.
  assert (L : String.length (substring 0 n s) = n)
    by (apply substring_0_length; lia).
  split; [|split].
  - apply strip_id; [|apply ends_nonspace_dots].
    destruct n as [|n]; [lia|].
    destruct s as [|c s]; [simpl in Hlen; lia|exact Hs].
  - rewrite string_length_append, L. reflexivity.
  - rewrite substring_0_append by lia.
    rewrite (substring_0_all n (substring 0 n s)) by lia. reflexivity.
Qed.

(** X17. The text that [preprocess_document] tokenizes has at most 10003
    characters: the stripped text when that has at most 10000 characters,
    and otherwise its first 10000 characters followed by three dots, which
    is longer than a stripped text of 10001 or 10002 characters. *)
Theorem preprocess_text_length (text : string) :
  Z.of_nat (String.length (preprocess_text text))
  = if (10000 <? Z.of_nat (String.length (strip text)))%Z
    then 10003%Z
    else Z.of_nat (String.length (strip text)).
Proof.
  unfold preprocess_text, str_prefix.
  destruct (Z.ltb_spec 10000 (Z.of_nat (String.length (strip text))))
    as [H|H]; [|reflexivity].
  rewrite string_length_append, substring_0_length by lia.
  rewrite Nat2Z.inj_add, Z2Nat.id by lia. reflexivity.
Qed.

(** X18. Cleaning a text a second time changes nothing. *)
Theorem preprocess_text_idempotent (text : string) :
  preprocess_text (preprocess_text text) = preprocess_text text.
Proof.
  unfold preprocess_text at 2 3. unfold str_prefix.
  destruct (Z.ltb_spec 10000 (Z.of_nat (String.length (strip text))))
    as [H|H].
  - remember (Z.to_nat 10000) as n eqn:Hn.
    assert (N : Z.of_nat n = 10000%Z) by (subst n; apply Z2Nat.id; lia).
    destruct (truncated_fixed n (strip text)) as (F1 & F2 & F3);
      [lia|lia|apply strip_starts|].
    unfold preprocess_text, str_prefix. rewrite <- Hn, F1, F2.
    destruct (Z.ltb_spec 10000 (Z.of_nat (n + 3))) as [_|G]; [exact F3|lia].
  - unfold preprocess_text.
    rewrite (strip_id (strip text) (strip_starts text) (strip_ends text)).
    destruct (Z.ltb_spec 10000 (Z.of_nat (String.length (strip text))));
      [lia|reflexivity].
Qed.

(** X19. The text that is tokenized neither starts nor ends with a blank. *)
Theorem preprocess_text_stripped (text : string) :
  starts_nonspace (preprocess_text text) = true /\
  ends_nonspace (preprocess_text text) = true.
Proof.
  unfold preprocess_text, str_prefix.
  destruct (Z.ltb_spec 10000 (Z.of_nat (String.length (strip text))))
    as [H|H].
  - split; [|apply ends_nonspace_dots].
    remember (Z.to_nat 10000) as n eqn:Hn.
    assert (N : Z.of_nat n = 10000%Z) by (subst n; apply Z2Nat.id; lia).
    pose proof (strip_starts text) as S.
    destruct n as [|n]; [lia|].
    destruct (strip text) as [|c s]; [simpl in H; lia|exact S].
  - split; [apply strip_starts|apply strip_ends].
Qed.

Example preprocess_text_blanks :
  preprocess_text (String (chr 10) "  Hello world. " ++ String (chr 9) "")
  = "Hello world.".
Proof. vm_compute. reflexivity. Qed.

(** ** The model hash *)

Lemma sha256_bytes_format data : is_hexdigest (sha256_bytes data) = true.
Proof. apply hexdigest_of_format. Qed.

(** X20. [_get_model_hash] returns a string of 64 lowercase hexadecimal
    characters, or the literal unknown_model_hash; the literal only when one
    of the three files it looks at exists and cannot be read. *)
Theorem get_model_hash_format (fs : filesystem) (model_path : string) :
  is_hexdigest (_get_model_hash fs model_path) = true \/
  (_get_model_hash fs model_path = "unknown_model_hash" /\
   exists name,
     In name ["pytorch_model.bin"; "config.json"; "tokenizer.json"] /\
     fs (os_path_join model_path name) = Unreadable).
Proof.
  unfold _get_model_hash, update_existing, os_path_exists, read_bytes.
  destruct (fs (os_path_join model_path "pytorch_model.bin")) eqn:W.
  - destruct (fs (os_path_join model_path "config.json")) eqn:C;
    destruct (fs (os_path_join model_path "tokenizer.json")) eqn:T;
      try (left; apply sha256_bytes_format);
      right; (split; [reflexivity|]).
    + exists "tokenizer.json". simpl. auto.
    + exists "tokenizer.json". simpl. auto.
    + exists "config.json". simpl. auto.
    + exists "config.json". simpl. auto.
    + exists "config.json". simpl. auto.
  - left. apply sha256_bytes_format.
  - right. split; [reflexivity|].
    exists "pytorch_model.bin". simpl. auto.
Qed.

(** X21. For a directory that holds none of the three files, and so for a
    wrong path, [_get_model_hash] returns the digest of the empty byte
    string, not unknown_model_hash. *)
Theorem get_model_hash_of_nothing (fs : filesystem) (model_path : string) :
  fs (os_path_join model_path "pytorch_model.bin") = Absent ->
  fs (os_path_join model_path "config.json") = Absent ->
  fs (os_path_join model_path "tokenizer.json") = Absent ->
  _get_model_hash fs model_path
  = "e3b0c44298fc1c149afbf4c8996fb92427ae41e4649b934ca495991b7852b855".
Proof.
  intros W C T.
  unfold _get_model_hash, update_existing, os_path_exists, read_bytes.
  rewrite W, C, T. vm_compute. reflexivity.
Qed.

(** An instance of X21: the empty file system. *)
Lemma get_model_hash_of_nothing_witness :
  _get_model_hash (fun _ => Absent) "models/bart-large-cnn"
  = "e3b0c44298fc1c149afbf4c8996fb92427ae41e4649b934ca495991b7852b855".
Proof.
  apply get_model_hash_of_nothing; reflexivity.
Defined.

(** X22. Without the weights file, the hash covers the bytes of config.json
    followed by those of tokenizer.json, and not where the one ends: moving
    bytes from the end of the first file to the start of the second leaves
    the hash unchanged. *)
Theorem get_model_hash_file_boundary (fs1 fs2 : filesystem)
    (model_path : string) (a b c : list Z) :
  fs1 (os_path_join model_path "pytorch_model.bin") = Absent ->
  fs2 (os_path_join model_path "pytorch_model.bin") = Absent ->
  fs1 (os_path_join model_path "config.json") = Content (a ++ b) ->
  fs1 (os_path_join model_path "tokenizer.json") = Content c ->
  fs2 (os_path_join model_path "config.json") = Content a ->
  fs2 (os_path_join model_path "tokenizer.json") = Content (b ++ c) ->
  _get_model_hash fs1 model_path = _get_model_hash fs2 model_path.
Proof.
  intros W1 W2 C1 T1 C2 T2.
  unfold _get_model_hash, update_existing, os_path_exists, read_bytes.
  rewrite W1, W2, C1, T1, C2, T2. cbn [app].
  now rewrite app_assoc.
Qed.

(** An instance of X22. *)
Lemma get_model_hash_file_boundary_witness :
  _get_model_hash
    (fun path => if String.eqb path "m/config.json" then Content [1; 2]%Z
                 else if String.eqb path "m/tokenizer.json" then Content [3]%Z
                 else Absent) "m"
  = _get_model_hash
      (fun path => if String.eqb path "m/config.json" then Content [1]%Z
                   else if String.eqb path "m/tokenizer.json"
                        then Content [2; 3]%Z
                   else Absent) "m".
Proof.
  apply (get_model_hash_file_boundary _ _ "m" [1]%Z [2]%Z [3]%Z);
    reflexivity.
Defined.

(** ** The module-level summarizer *)

Lemma get_zkml_summarizer_calls_set {T : Type} (s : T) constructs :
  get_zkml_summarizer_calls constructs (Some s)
  = (repeat (Ok s) (List.length constructs), Some s).
Proof.
  induction constructs as [|c rest IH]; cbn; [reflexivity|].
  now rewrite IH.
Qed.

(** X23. Over a run of calls of [get_zkml_summarizer] that starts with the
    module variable unset: as long as the construction fails, each call
    raises the error of its own construction and keeps nothing, so that the
    next call constructs again; the first construction that succeeds is
    returned and kept, and every later call returns that same instance,
    whatever a construction would give then. When no construction succeeds
    the variable stays unset. *)
Theorem get_zkml_summarizer_single_instance {T : Type}
    (errors : list exn) (s : T) (rest : list (result T)) :
  get_zkml_summarizer_calls (map Raise errors ++ Ok s :: rest)%list None
  = ((map Raise errors ++ repeat (Ok s) (S (List.length rest)))%list,
     Some s) /\
  get_zkml_summarizer_calls (map (@Raise T) errors) None
  = (map Raise errors, None).
Proof.
  split.
  - induction errors as [|e errors IH]; cbn.
    + now rewrite get_zkml_summarizer_calls_set.
    + now rewrite IH.
  - induction errors as [|e errors IH]; cbn; [reflexivity|].
    now rewrite IH.
Qed.

(** ** From inference to verification *)

Section Pipeline.

Context {RB : RandomBackend}.
Variable summarize : string -> Z -> Z -> result string.

Lemma run_inference_ok self_model_hash text max_length min_length timestamp
    summary metadata :
  run_inference summarize self_model_hash text max_length min_length
    timestamp = Ok (summary, metadata) ->
  summarize (preprocess_text text) max_length min_length = Ok summary /\
  metadata = run_inference_metadata self_model_hash text summary
               max_length min_length timestamp.
Proof.
  unfold run_inference.
  destruct (summarize (preprocess_text text) max_length min_length);
    intros H; inversion H. auto.
Qed.

Lemma verify_inference_of_inference
    self_model_hash text summary max_length min_length timestamp
    st proof st' self_model_hash' text' summary' :
  generate_zk_proof text summary
    (run_inference_metadata self_model_hash text summary
       max_length min_length timestamp) st = (Ok proof, st') ->
  verify_inference self_model_hash' text' summary' proof
  = Ok (String.eqb (str_prefix 16 (sha256_hex text))
                   (str_prefix 16 (sha256_hex text'))
        && String.eqb (str_prefix 16 (sha256_hex summary))
                      (str_prefix 16 (sha256_hex summary'))
        && String.eqb (str_prefix 16 self_model_hash)
                      (str_prefix 16 self_model_hash')).
Proof.
  intros H. apply generate_zk_proof_ok in H.
  destruct H as (ih & oh & mh & il & ol & vk & pa & pb & pc & s0 & s1 & s2
                 & s3 & st1 & st2 & Hih & Hoh & Hmh & Hil & Hol & Hvk & H).
  cbn zeta in H. destruct H as (_ & _ & _ & H0 & H1 & H2 & _ & ->).
  cbn in Hih, Hoh, Hmh.
  inversion Hih; inversion Hoh; inversion Hmh; subst; clear Hih Hoh Hmh.
  cbn in H0, H1, H2. inversion H0; inversion H1; inversion H2; subst.
  rewrite verify_proof_dict. cbn [py_eq_str].
  now rewrite String.eqb_refl, andb_true_r.
Qed.

(** X24. The model is given the cleaned text, the metadata digest the raw
    text: two texts with the same cleaned form get the same summary, and an
    artifact synthesised for the first is accepted for the second exactly
    when the truncated digests of the two raw texts coincide. *)
Theorem run_inference_same_cleaned_text
    (self_model_hash text1 text2 : string)
    (max_length min_length timestamp1 timestamp2 : Z)
    (summary1 summary2 : string) (metadata1 metadata2 : pyval) :
  preprocess_text text1 = preprocess_text text2 ->
  run_inference summarize self_model_hash text1 max_length min_length
    timestamp1 = Ok (summary1, metadata1) ->
  run_inference summarize self_model_hash text2 max_length min_length
    timestamp2 = Ok (summary2, metadata2) ->
  summary1 = summary2 /\
  forall st proof st',
    generate_zk_proof text1 summary1 metadata1 st = (Ok proof, st') ->
    verify_inference self_model_hash text2 summary2 proof
    = Ok (String.eqb (str_prefix 16 (sha256_hex text1))
                     (str_prefix 16 (sha256_hex text2))).
Proof.
  intros Hc R1 R2.
  apply run_inference_ok in R1. destruct R1 as [S1 ->].
  apply run_inference_ok in R2. destruct R2 as [S2 ->].
  rewrite Hc, S2 in S1. inversion S1; subst summary2.
  split; [reflexivity|].
  intros st proof st' G.
  rewrite (verify_inference_of_inference _ _ _ _ _ _ _ _ _
             self_model_hash text2 summary1 G).
  now rewrite !String.eqb_refl, !andb_true_r.
Qed.

(** X25. Inference, synthesis and verification in a row: when the model
    returns a summary and the commitment of the metadata does not start with
    ffffffff, [generate_zk_proof] returns an artifact and [verify_inference]
    accepts it for the text and the summary. *)
Theorem inference_pipeline (self_model_hash text : string)
    (max_length min_length timestamp : Z)
    (summary : string) (metadata : pyval) (st : rng_state) :
  run_inference summarize self_model_hash text max_length min_length
    timestamp = Ok (summary, metadata) ->
  str_prefix 8 (inference_commitment self_model_hash text summary)
    <> "ffffffff" ->
  exists proof st',
    generate_zk_proof text summary metadata st = (Ok proof, st') /\
    verify_inference self_model_hash text summary proof = Ok true.
Proof.
  intros R N. apply run_inference_ok in R. destruct R as [_ ->].
  destruct (synthesis_outcome self_model_hash text summary
              max_length min_length timestamp st) as [Hok _].
  destruct (Hok N) as (proof & st' & G).
  exists proof, st'. split; [exact G|].
  rewrite (verify_inference_of_inference _ _ _ _ _ _ _ _ _
             self_model_hash text summary G).
  now rewrite !String.eqb_refl.
Qed.

End Pipeline.

Lemma hello_inference :
  run_inference (fun _ _ _ => Ok "Hello.") hello_model_hash "Hello world."
    150 30 0
  = Ok ("Hello.", hello_metadata).
Proof. reflexivity. Qed.

(** An instance of X24: the text of the scenario and the same text after a
    blank. *)
Lemma run_inference_same_cleaned_text_witness :
  preprocess_text "Hello world." = preprocess_text " Hello world." /\
  verify_inference hello_model_hash " Hello world." "Hello." hello_proof
  = Ok false.
Proof.
  assert (P : preprocess_text "Hello world." = preprocess_text " Hello world.")
    by (vm_compute; reflexivity).
  split; [exact P|].
  destruct (run_inference_same_cleaned_text (RB := numpy_mt19937)
              (fun _ _ _ => Ok "Hello.") hello_model_hash
              "Hello world." " Hello world." 150 30 0 0
              "Hello." "Hello." hello_metadata
              (run_inference_metadata hello_model_hash " Hello world."
                 "Hello." 150 30 0)
              P hello_inference eq_refl) as [_ V].
  rewrite (V _ _ _ hello_run). vm_compute. reflexivity.
Defined.

(** An instance of X25. *)
Lemma inference_pipeline_witness :
  exists proof st',
    generate_zk_proof (RB := numpy_mt19937) "Hello world." "Hello."
      hello_metadata (MT19937.seed 0) = (Ok proof, st') /\
    verify_inference hello_model_hash "Hello world." "Hello." proof
    = Ok true.
Proof.
  apply (inference_pipeline (RB := numpy_mt19937)
           (fun _ _ _ => Ok "Hello.") hello_model_hash "Hello world."
           150 30 0 "Hello." hello_metadata (MT19937.seed 0)
           hello_inference).
  vm_compute. discriminate.
Defined.
